(** * Digital Library: catalog, order ledger and persistence

    A shallow embedding of [library_core.py], [storage.py] and the order
    handlers of [app.py].  Python dictionaries keyed by book id are finite
    maps ([gmap string _]); a cart or an order's [items] dictionary is kept
    as the list of its [(book_id, qty)] entries in insertion order, because
    the loops over [items.items()] report the first failing line; that the
    keys of a dictionary are distinct is then the hypothesis
    [NoDup items.*1] of the statements that need it.  Python integers are
    [Z], prices are binary64 floats, and a raised exception is the [Raise]
    branch of [result].  The re-entrant lock of [Library] has no effect on a
    single thread of calls and is not modelled. *)

From Stdlib Require Import ZArith Floats Ascii.
From stdpp Require Import gmap strings list fin_maps pretty.

Local Open Scope Z_scope.

(** ** Exceptions *)

Inductive exn : Type :=
| ValueError (msg : string)
| KeyError (key : string)
| IndexError
| OverflowError.

Inductive result (A : Type) : Type :=
| Ok (a : A)
| Raise (e : exn).

Arguments Ok {A} a.
Arguments Raise {A} e.

#[global] Instance result_ret : MRet result := @Ok.
#[global] Instance result_bind : MBind result := λ A B k r,
  match r with
  | Ok a => k a
  | Raise e => Raise e
  end.

(** ** library_core.py: Book *)

Record Book : Type := mkBook {
  title : string;
  author : string;
  book_id : string;
  total_copies : Z;
  available_copies : Z;
  price : float;
  image_url : option string;
  image_bytes : option (list Byte.byte);
  image_mime : option string
}.

Definition set_meta (t a : string) (b : Book) : Book :=
  mkBook t a (book_id b) (total_copies b) (available_copies b) (price b)
         (image_url b) (image_bytes b) (image_mime b).

Definition set_total (n : Z) (b : Book) : Book :=
  mkBook (title b) (author b) (book_id b) n (available_copies b) (price b)
         (image_url b) (image_bytes b) (image_mime b).

Definition set_available (n : Z) (b : Book) : Book :=
  mkBook (title b) (author b) (book_id b) (total_copies b) n (price b)
         (image_url b) (image_bytes b) (image_mime b).

Definition set_book_price (p : float) (b : Book) : Book :=
  mkBook (title b) (author b) (book_id b) (total_copies b) (available_copies b) p
         (image_url b) (image_bytes b) (image_mime b).

Definition set_cover (url : option string) (bytes : option (list Byte.byte))
    (mime : option string) (b : Book) : Book :=
  mkBook (title b) (author b) (book_id b) (total_copies b) (available_copies b)
         (price b) url bytes mime.

(** [Book.__init__]: a negative [total_copies] raises [ValueError]; the three
    cover attributes are stored exactly as they are passed. *)
Definition Book_init (t a bid : string) (total : Z) (url : option string)
    (bytes : option (list Byte.byte)) (mime : option string) (p : float)
  : result Book :=
  if total <? 0 then Raise (ValueError "total_copies cannot be negative")
  else Ok (mkBook t a bid total total p url bytes mime).

Definition is_available (b : Book) : bool := 0 <? available_copies b.

(** Truth value of an optional string ([None] and [""] are false). *)
Definition truthy (o : option string) : bool :=
  match o with
  | Some s => negb (String.eqb s "")
  | None => false
  end.

(** What [cover_for_streamlit] hands to the page: the uploaded bytes wrapped
    in a [BytesIO], or the URL. *)
Inductive Cover : Type :=
| BytesIO (data : list Byte.byte)
| Url (s : string).

Definition cover_for_streamlit (b : Book) : option Cover :=
  match image_bytes b with
  | Some (c :: data) => Some (BytesIO (c :: data))
  | _ => if truthy (image_url b) then Url <$> image_url b else None
  end.

(** ** library_core.py: User *)

Record User : Type := mkUser {
  name : string;
  borrowed_books : list string
}.

Definition User_borrow (bid : string) (u : User) : User :=
  mkUser (name u) (borrowed_books u ++ [bid]).

(** [list.remove]: drops the first occurrence only. *)
Fixpoint remove_first (x : string) (l : list string) : list string :=
  match l with
  | [] => []
  | y :: l' => if String.eqb y x then l' else y :: remove_first x l'
  end.

Definition User_return_book (bid : string) (u : User) : User * bool :=
  if bool_decide (bid ∈ borrowed_books u)
  then (mkUser (name u) (remove_first bid (borrowed_books u)), true)
  else (u, false).

(** ** library_core.py: Library *)

Record BorrowRecord : Type := mkBorrowRecord {
  br_user : string;
  br_book_id : string;
  br_title : string
}.

Record Library : Type := mkLibrary {
  lib_name : string;
  books : gmap string Book;
  users : gmap string User;
  borrow_records : list BorrowRecord
}.

Definition Library_init (n : string) : Library := mkLibrary n ∅ ∅ [].

Definition set_books (bs : gmap string Book) (l : Library) : Library :=
  mkLibrary (lib_name l) bs (users l) (borrow_records l).

Definition has_book (l : Library) (bid : string) : bool :=
  bool_decide (is_Some (books l !! bid)).

Definition get_or_create_user (l : Library) (user_name : string) : Library * User :=
  match users l !! user_name with
  | Some u => (l, u)
  | None =>
      let u := mkUser user_name [] in
      (mkLibrary (lib_name l) (books l) (<[user_name := u]> (users l))
                 (borrow_records l), u)
  end.

(** The update branch of [add_book], lines 124-150. *)
Definition update_book (t a : string) (total : Z) (url : option string)
    (bytes : option (list Byte.byte)) (mime : option string) (b : Book) : Book :=
  let sold_or_out := total_copies b - available_copies b in
  let sold_or_out := if sold_or_out <? 0 then 0 else sold_or_out in
  let b := set_meta t a b in
  let b := set_total total b in
  let b := set_available (Z.max 0 (total_copies b - sold_or_out)) b in
  let b := set_available (Z.min (total_copies b) (available_copies b)) b in
  match bytes with
  | Some _ => set_cover None bytes mime b
  | None => if truthy url then set_cover url None None b else b
  end.

Definition add_book (l : Library) (t a bid : string) (total : Z)
    (url : option string) (bytes : option (list Byte.byte)) (mime : option string)
  : result (Library * string) :=
  if total <=? 0 then Ok (l, "total_copies must be > 0.")
  else
    match books l !! bid with
    | Some b =>
        Ok (set_books (<[bid := update_book t a total url bytes mime b]> (books l)) l,
            "Book updated (total copies set).")
    | None =>
        b ← Book_init t a bid total url bytes mime 0%float;
        Ok (set_books (<[bid := b]> (books l)) l, "Book added successfully.")
    end.

Definition set_price (l : Library) (bid : string) (p : float) : Library * string :=
  match books l !! bid with
  | None => (l, "Book ID not found.")
  | Some b => (set_books (<[bid := set_book_price p b]> (books l)) l, "Price updated.")
  end.

Definition add_stock (l : Library) (bid : string) (qty : Z) : Library * string :=
  if qty <=? 0 then (l, "qty must be > 0.")
  else
    match books l !! bid with
    | None => (l, "Book ID not found.")
    | Some b =>
        let b := set_total (total_copies b + qty) b in
        let b := set_available (Z.min (total_copies b) (available_copies b + qty)) b in
        (set_books (<[bid := b]> (books l)) l, "Stock added.")
    end.

(** [can_purchase]: the loop returns at the first line that fails. *)
Fixpoint can_purchase_lines (bs : gmap string Book) (items : list (string * Z))
  : bool * string :=
  match items with
  | [] => (true, "OK")
  | (bid, q) :: rest =>
      match bs !! bid with
      | None => (false, "Book ID not found: " +:+ bid)
      | Some b =>
          if q <=? 0 then (false, "Qty must be > 0.")
          else if available_copies b <? q
               then (false, "Not enough stock for " +:+ title b +:+ ".")
               else can_purchase_lines bs rest
      end
  end.

Definition can_purchase (l : Library) (items : list (string * Z)) : bool * string :=
  can_purchase_lines (books l) items.

(** The second loop of [purchase]; [self.books[bid]] raises [KeyError] on an
    absent id. *)
Fixpoint purchase_lines (bs : gmap string Book) (items : list (string * Z))
  : result (gmap string Book) :=
  match items with
  | [] => Ok bs
  | (bid, q) :: rest =>
      match bs !! bid with
      | None => Raise (KeyError bid)
      | Some b =>
          let b := set_available (available_copies b - q) b in
          let b := set_available (Z.max 0 (available_copies b)) b in
          purchase_lines (<[bid := b]> bs) rest
      end
  end.

Definition purchase (l : Library) (items : list (string * Z))
  : result (Library * (bool * string)) :=
  let '(ok, msg) := can_purchase l items in
  if negb ok then Ok (l, (false, msg))
  else
    bs ← purchase_lines (books l) items;
    Ok (set_books bs l, (true, "Purchased.")).

Fixpoint restock_lines (bs : gmap string Book) (items : list (string * Z))
  : gmap string Book :=
  match items with
  | [] => bs
  | (bid, q) :: rest =>
      match bs !! bid with
      | Some b =>
          let b := set_available (Z.min (total_copies b) (available_copies b + q)) b in
          restock_lines (<[bid := b]> bs) rest
      | None => restock_lines bs rest
      end
  end.

Definition restock (l : Library) (items : list (string * Z)) : Library * string :=
  (set_books (restock_lines (books l) items) l, "Restocked.").

Definition borrow_book (l : Library) (user_name bid : string) : Library * string :=
  match books l !! bid with
  | None => (l, "Book ID not found.")
  | Some book =>
      if negb (is_available book) then (l, "No copies available.")
      else
        let '(l, user) := get_or_create_user l user_name in
        let book := set_available (available_copies book - 1) book in
        let user := User_borrow bid user in
        (mkLibrary (lib_name l) (<[bid := book]> (books l))
                   (<[user_name := user]> (users l))
                   (borrow_records l ++ [mkBorrowRecord user_name bid (title book)]),
         user_name +:+ " borrowed '" +:+ title book +:+ "' successfully.")
  end.

(** The [enumerate]/[pop]/[break] loop of [return_book]. *)
Fixpoint pop_record (user_name bid : string) (rs : list BorrowRecord)
  : list BorrowRecord :=
  match rs with
  | [] => []
  | r :: rs' =>
      if String.eqb (br_user r) user_name && String.eqb (br_book_id r) bid
      then rs'
      else r :: pop_record user_name bid rs'
  end.

Definition return_book (l : Library) (user_name bid : string) : Library * string :=
  match books l !! bid with
  | None => (l, "Book ID not found in library.")
  | Some book =>
      match users l !! user_name with
      | None => (l, "User not found.")
      | Some user =>
          let '(user, found) := User_return_book bid user in
          if negb found then (l, "This user did not borrow this book.")
          else
            let book :=
              set_available (Z.min (total_copies book) (available_copies book + 1)) book in
            (mkLibrary (lib_name l) (<[bid := book]> (books l))
                       (<[user_name := user]> (users l))
                       (pop_record user_name bid (borrow_records l)),
             user_name +:+ " returned '" +:+ title book +:+ "' successfully.")
      end
  end.

(** ** library_core.py: to_dict / load_from_dict *)

(** One serialized book.  The three fields read with [d.get] may be missing
    from a stored record ([None]); [to_dict] always writes them. *)
Record ItemRecord : Type := mkItemRecord {
  r_title : string;
  r_author : string;
  r_total_copies : Z;
  r_available_copies : option Z;
  r_price : option float;
  r_image_url : option string
}.

Definition book_to_record (b : Book) : ItemRecord :=
  mkItemRecord (title b) (author b) (total_copies b) (Some (available_copies b))
               (Some (price b)) (image_url b).

Definition to_dict (l : Library) : gmap string ItemRecord :=
  book_to_record <$> books l.

Definition load_item (bid : string) (d : ItemRecord) : result Book :=
  b ← Book_init (r_title d) (r_author d) bid (r_total_copies d) (r_image_url d)
                None None (default 0%float (r_price d));
  Ok (set_available (default (r_total_copies d) (r_available_copies d)) b).

(** The loop inserts one book per entry; its outcome does not depend on the
    order in which the entries are visited. *)
Definition load_from_dict (l : Library) (data : gmap string ItemRecord)
  : result Library :=
  bs ← map_fold (λ bid d acc, bs ← acc; b ← load_item bid d; Ok (<[bid := b]> bs))
                (Ok ∅) data;
  Ok (set_books bs l).

(** ** app.py: orders *)

(** An order dictionary; [o_items] is its ["items"] entry, and so on. *)
Record Order : Type := mkOrder {
  o_order_id : string;
  o_time : string;
  o_customer : string;
  o_user_id : string;
  o_items : list (string * Z);
  o_status : string;
  o_total_usd : float;
  o_admin_note : string
}.

Definition set_status (s : string) (o : Order) : Order :=
  mkOrder (o_order_id o) (o_time o) (o_customer o) (o_user_id o) (o_items o) s
          (o_total_usd o) (o_admin_note o).

Definition set_admin_note (n : string) (o : Order) : Order :=
  mkOrder (o_order_id o) (o_time o) (o_customer o) (o_user_id o) (o_items o)
          (o_status o) (o_total_usd o) n.

(** ** storage.py *)

(** The JSON object kept in [library_state.json]; a key may be missing. *)
Record State : Type := mkState {
  st_books : option (gmap string ItemRecord);
  st_orders : option (list Order)
}.

Definition empty_state : State := mkState (Some ∅) (Some []).

(** [DATA_FILE]: missing, present but not readable, or present with a text. *)
Inductive file (blob : Type) : Type :=
| Absent
| Unreadable
| Content (b : blob).

Arguments Absent {blob}.
Arguments Unreadable {blob}.
Arguments Content {blob} b.

Record Store : Type := mkStore {
  lib : Library;
  orders : list Order
}.

(** What a handler shows: [st.error], [st.success], or nothing. *)
Inductive feedback : Type :=
| st_error (msg : string)
| st_success (msg : string)
| st_none.

(** Conversion of a Python integer to a float, as [float * int] performs it:
    round to nearest even, [OverflowError] past the largest finite double. *)
Definition float_of_int (z : Z) : result float :=
  let f := SF2Prim (binary_normalize prec emax z 0 false) in
  if PrimFloat.is_infinity f then Raise OverflowError else Ok f.

Fixpoint order_total_from (bs : gmap string Book) (total : float)
    (items : list (string * Z)) : result float :=
  match items with
  | [] => Ok total
  | (bid, q) :: rest =>
      match bs !! bid with
      | None => order_total_from bs total rest
      | Some b =>
          f ← float_of_int q;
          order_total_from bs (PrimFloat.add total (PrimFloat.mul (price b) f)) rest
      end
  end.

Definition order_total (l : Library) (items : list (string * Z)) : result float :=
  order_total_from (books l) 0%float items.

(** [f"{n:05d}"] *)
Definition zfill5 (n : nat) : string :=
  let s := pretty n in
  String.concat "" (replicate (5 - String.length s)%nat "0") +:+ s.

Fixpoint find_order_from (i : nat) (oid : string) (os : list Order) : option nat :=
  match os with
  | [] => None
  | o :: os' => if String.eqb (o_order_id o) oid then Some i
                else find_order_from (S i) oid os'
  end.

Definition find_order_index (s : Store) (oid : string) : option nat :=
  if String.eqb oid "" then None else find_order_from 0 oid (orders s).

(** The cart loop of the Buy tab drops the lines whose book is gone. *)
Definition prune_cart (bs : gmap string Book) (items : list (string * Z))
  : list (string * Z) :=
  List.filter (λ line, bool_decide (is_Some (bs !! line.1))) items.

Section Storage.

(** [json.dumps] and [json.load] are the interpreter's; [json_load] is [None]
    where [json.load] raises. *)
Context {blob : Type}.
Variable json_dumps : State → blob.
Variable json_load : blob → option State.

Definition load_state (f : file blob) : State :=
  match f with
  | Absent => empty_state
  | Unreadable => empty_state
  | Content b =>
      match json_load b with
      | Some st => st
      | None => empty_state
      end
  end.

Definition save_state (books_dict : gmap string ItemRecord) (orders_list : list Order)
  : file blob :=
  Content (json_dumps (mkState (Some books_dict) (Some orders_list))).

(** ** app.py: the shared store and its handlers *)

Definition get_store (f : file blob) : result Store :=
  let l := Library_init "Digital Library" in
  let state := load_state f in
  l ← load_from_dict l (default ∅ (st_books state));
  Ok (mkStore l (default [] (st_orders state))).

Definition persist_now (s : Store) : file blob :=
  save_state (to_dict (lib s)) (orders s).

(** The store together with the file it is flushed to. *)
Record World : Type := mkWorld {
  store : Store;
  disk : file blob
}.

(** "Place Order (Confirm)", lines 501-552.  The form is rendered only for a
    non-empty cart; [now] is the clock's text. *)
Definition confirm_order (w : World) (now customer user_id : string)
    (cart : list (string * Z)) : result (World * list (string * Z) * feedback) :=
  match cart with
  | [] => Ok (w, cart, st_none)
  | _ :: _ =>
      total ← order_total (lib (store w)) cart;
      let items := prune_cart (books (lib (store w))) cart in
      r ← purchase (lib (store w)) items;
      let '(l, (ok, msg)) := r in
      if negb ok then Ok (mkWorld (mkStore l (orders (store w))) (disk w), items, st_error msg)
      else
        let order_id := "ORD-" +:+ zfill5 (length (orders (store w)) + 1) in
        let o := mkOrder order_id now customer user_id items "PENDING_PAYMENT" total "" in
        let s := mkStore l (orders (store w) ++ [o]) in
        Ok (mkWorld s (persist_now s), [],
            st_success ("Order " +:+ order_id +:+
                        " created. Please complete payment in 'My Orders'."))
  end.

(** "Pay Now", lines 586-598, on the row shown for the order at position
    [row] of the ledger: the button is disabled unless that row is pending;
    the order changed is the first one that carries the row's id. *)
Definition pay_now (w : World) (row : nat) : World :=
  match orders (store w) !! row with
  | None => w
  | Some r =>
      if negb (String.eqb (o_status r) "PENDING_PAYMENT") then w
      else
        match find_order_index (store w) (o_order_id r) with
        | None => w
        | Some idx =>
            match orders (store w) !! idx with
            | None => w
            | Some o =>
                let s := mkStore (lib (store w))
                                 (<[idx := set_status "PAID" o]> (orders (store w))) in
                mkWorld s (persist_now s)
            end
        end
  end.

(** "Mark Delivered", lines 393-399: disabled unless the order is paid. *)
Definition mark_delivered (w : World) (idx : nat) : result World :=
  match orders (store w) !! idx with
  | None => Raise IndexError
  | Some o =>
      if negb (String.eqb (o_status o) "PAID") then Ok w
      else
        let s := mkStore (lib (store w))
                         (<[idx := set_status "DELIVERED" o]> (orders (store w))) in
        Ok (mkWorld s (persist_now s))
  end.

(** "Send payment reminder", lines 402-410. *)
Definition send_reminder (w : World) (idx : nat) : result World :=
  match orders (store w) !! idx with
  | None => Raise IndexError
  | Some o =>
      let note := "Your order " +:+ o_order_id o +:+
                  " is still unpaid. Kindly confirm your payment." in
      let s := mkStore (lib (store w))
                       (<[idx := set_admin_note note o]> (orders (store w))) in
      Ok (mkWorld s (persist_now s))
  end.

(** "Cancel (Restock)", lines 412-419: the button is never disabled. *)
Definition cancel_restock (w : World) (idx : nat) : result World :=
  match orders (store w) !! idx with
  | None => Raise IndexError
  | Some o =>
      let items_to_restock := o_items o in
      let os := <[idx := set_status "CANCELLED (RESTOCKED)" o]> (orders (store w)) in
      let '(l, _) := restock (lib (store w)) items_to_restock in
      let s := mkStore l os in
      Ok (mkWorld s (persist_now s))
  end.

End Storage.

(** ** Vocabulary of the properties *)

(** [clamp x lo hi]: [x] brought into the interval from [lo] to [hi]. *)
Definition clamp (x lo hi : Z) : Z := Z.max lo (Z.min x hi).

(** The catalog invariant on one book. *)
Definition stock_ok (b : Book) : Prop :=
  0 ≤ available_copies b ≤ total_copies b.

Definition catalog_ok (l : Library) : Prop :=
  map_Forall (λ _ b, stock_ok b) (books l).

(** A line of a batch that [can_purchase] refuses. *)
Definition line_fails (bs : gmap string Book) (line : string * Z) : Prop :=
  bs !! line.1 = None ∨ line.2 ≤ 0 ∨
  ∃ b, bs !! line.1 = Some b ∧ available_copies b < line.2.

(** The three failure messages of [can_purchase]. *)
Definition is_not_found (msg : string) : Prop :=
  ∃ bid, msg = "Book ID not found: " +:+ bid.

Definition is_insufficient_stock (msg : string) : Prop :=
  ∃ t, msg = "Not enough stock for " +:+ t +:+ ".".

Definition is_bad_quantity (msg : string) : Prop :=
  msg = "Qty must be > 0.".

(** The cover of a book: nothing, an uploaded image, or a URL. *)
Definition has_inline_cover (b : Book) : Prop := is_Some (image_bytes b).
Definition has_url_cover (b : Book) : Prop := is_Some (image_url b).

(** Two books that differ at most in their price. *)
Definition same_except_price (b b' : Book) : Prop :=
  title b' = title b ∧ author b' = author b ∧ book_id b' = book_id b ∧
  total_copies b' = total_copies b ∧ available_copies b' = available_copies b ∧
  image_url b' = image_url b ∧ image_bytes b' = image_bytes b ∧
  image_mime b' = image_mime b.

Definition is_negative (x : float) : bool := PrimFloat.ltb x 0%float.

(** At most one kind of cover is set. *)
Definition one_cover (b : Book) : Prop :=
  ¬ (has_inline_cover b ∧ has_url_cover b).

(** The book that [load_item] builds from a stored record. *)
Definition record_to_book (bid : string) (d : ItemRecord) : Book :=
  mkBook (r_title d) (r_author d) bid (r_total_copies d)
         (default (r_total_copies d) (r_available_copies d))
         (default 0%float (r_price d)) (r_image_url d) None None.

(** What [load_item] rebuilds from [book_to_record b] under the key [bid]. *)
Definition reloaded (bid : string) (b : Book) : Book :=
  mkBook (title b) (author b) bid (total_copies b) (available_copies b) (price b)
         (image_url b) None None.

(** How often user [u] holds book [bid], and how many borrow records say
    so. *)
Definition borrowed_count (l : Library) (u bid : string) : nat :=
  length (filter (λ x, x = bid) (from_option borrowed_books [] (users l !! u))).

Definition record_count (l : Library) (u bid : string) : nat :=
  length (filter (λ r, br_user r = u ∧ br_book_id r = bid) (borrow_records l)).

(** The borrow records and the users' lists tell the same story. *)
Definition ledger_consistent (l : Library) : Prop :=
  ∀ u bid, record_count l u bid = borrowed_count l u bid.

(** Who holds what, according to a borrow record. *)
Definition record_key (r : BorrowRecord) : string * string :=
  (br_user r, br_book_id r).

(** What an order is about: everything but its status and its note. *)
Definition order_core (o : Order)
  : string * string * string * string * list (string * Z) * float :=
  (o_order_id o, o_time o, o_customer o, o_user_id o, o_items o, o_total_usd o).

(** The file holds the store as it is now. *)
Definition synced {blob : Type} (json_dumps : State → blob) (w : World) : Prop :=
  disk w = persist_now json_dumps (store w).

(** The ledger's ids follow the positions: ORD-00001, ORD-00002, ... *)
Definition ids_sequential (os : list Order) : Prop :=
  ∀ i o, os !! i = Some o → o_order_id o = "ORD-" +:+ zfill5 (S i).

(** A decimal numeral without leading zero. *)
Definition canonical (s : string) : Prop :=
  s = "0" ∨ ∃ c s', s = String c s' ∧ c ≠ "0"%char.

(** ** Sample states *)

Definition book_B1 : Book := mkBook "T" "A" "B1" 5 2 10%float None None None.

Definition lib_B1 : Library :=
  mkLibrary "Digital Library" {["B1" := book_B1]} ∅ [].

(** A book whose cover was uploaded. *)
Definition book_B2 : Book :=
  mkBook "U" "A" "B2" 3 3 4%float None (Some [Byte.x89; Byte.x50]) (Some "image/png").

Definition lib_B2 : Library :=
  mkLibrary "Digital Library" {["B2" := book_B2]} ∅ [].

Definition order_1 (status : string) : Order :=
  mkOrder "ORD-00001" "2024-01-01 10:00:00" "bob" "BOB-00001" [("B1", 2)] status
          20%float "".

(** A codec for the examples: a text is the document it holds, and [None] is
    a text that does not parse. *)
Definition doc_dumps (st : State) : option State := Some st.
Definition doc_load (t : option State) : option State := t.

Definition world_B1 (status : string) : @World (option State) :=
  mkWorld (mkStore lib_B1 [order_1 status]) Absent.

(** * Properties *)

(** ** Catalog: add_book on an existing id *)

Lemma update_book_total t a n url bytes mime b :
  total_copies (update_book t a n url bytes mime b) = n.
Proof. unfold update_book. destruct bytes; [done|]. by destruct (truthy url). Qed.

Lemma update_book_available t a n url bytes mime b :
  available_copies (update_book t a n url bytes mime b) =
  Z.min n (Z.max 0 (n - Z.max 0 (total_copies b - available_copies b))).
Proof.
  unfold update_book.
  assert ((if total_copies b - available_copies b <? 0 then 0
           else total_copies b - available_copies b)
          = Z.max 0 (total_copies b - available_copies b)) as ->.
  { destruct (Z.ltb_spec (total_copies b - available_copies b) 0); lia. }
  destruct bytes; [done|]. by destruct (truthy url).
Qed.

Lemma update_book_frame t a n url bytes mime b :
  title (update_book t a n url bytes mime b) = t ∧
  author (update_book t a n url bytes mime b) = a ∧
  book_id (update_book t a n url bytes mime b) = book_id b ∧
  price (update_book t a n url bytes mime b) = price b.
Proof. unfold update_book. destruct bytes; [done|]. by destruct (truthy url). Qed.

(** C4: saving an existing id again with a positive total overwrites the
    total (it is not added to the old one) and recomputes the available
    copies as clamp(new_total - (old_total - old_available), 0, new_total);
    title and author are replaced, id and price are kept. *)
Theorem add_book_existing_overwrites l t a bid n url bytes mime b :
  books l !! bid = Some b →
  0 < n →
  ∃ b', add_book l t a bid n url bytes mime
        = Ok (set_books (<[bid := b']> (books l)) l, "Book updated (total copies set).")
      ∧ total_copies b' = n
      ∧ available_copies b'
        = clamp (n - (total_copies b - available_copies b)) 0 n
      ∧ title b' = t ∧ author b' = a
      ∧ book_id b' = book_id b ∧ price b' = price b.
Proof.
  intros Hb Hn. exists (update_book t a n url bytes mime b).
  split.
  { unfold add_book. rewrite (proj2 (Z.leb_gt n 0) Hn), Hb. done. }
  split; [apply update_book_total|].
  split; [|apply update_book_frame].
  rewrite update_book_available. unfold clamp. lia.
Qed.

(** Scenario C: total 5 and available 2, saved again with total 10, ends
    with 7 available. *)
Lemma add_book_existing_overwrites_scenario :
  ∃ b', add_book lib_B1 "T" "A" "B1" 10 None None None
        = Ok (set_books (<["B1" := b']> (books lib_B1)) lib_B1,
              "Book updated (total copies set).")
      ∧ total_copies b' = 10 ∧ available_copies b' = 7.
Proof.
  destruct (add_book_existing_overwrites lib_B1 "T" "A" "B1" 10 None None None book_B1)
    as (b' & Hadd & Htot & Hav & _); [reflexivity | lia |].
  exists b'. split; [exact Hadd|]. split; [exact Htot|]. exact Hav.
Defined.

(** ** Catalog: set_price *)

(** C7 as the code has it: an absent id is answered with "Book ID not found."
    and nothing changes; for an existing id the given price, whatever its
    sign, becomes the stored price, every other field and every other book
    staying as it was. *)
Theorem set_price_spec l bid p :
  (books l !! bid = None → set_price l bid p = (l, "Book ID not found.")) ∧
  (∀ b, books l !! bid = Some b →
     ∃ b', set_price l bid p
           = (set_books (<[bid := b']> (books l)) l, "Price updated.")
         ∧ price b' = p
         ∧ same_except_price b b').
Proof.
  split.
  - intros Hb. unfold set_price. by rewrite Hb.
  - intros b Hb. exists (set_book_price p b).
    unfold set_price. rewrite Hb. by repeat split.
Qed.

(** The two cases on the sample catalog: "B9" is absent, "B1" is present. *)
Lemma set_price_spec_sample :
  set_price lib_B1 "B9" 3%float = (lib_B1, "Book ID not found.") ∧
  ∃ b', set_price lib_B1 "B1" 3%float
        = (set_books (<["B1" := b']> (books lib_B1)) lib_B1, "Price updated.")
      ∧ price b' = 3%float ∧ same_except_price book_B1 b'.
Proof.
  destruct (set_price_spec lib_B1 "B9" 3%float) as [Habsent _].
  destruct (set_price_spec lib_B1 "B1" 3%float) as [_ Hpresent].
  split; [apply Habsent; reflexivity|].
  apply (Hpresent book_B1). reflexivity.
Defined.

(** C7 as the claim states it fails: the price -1 for the existing id "B1"
    is not rejected; the call answers "Price updated." and the stored price,
    which was 10, is -1 afterwards. *)
Lemma set_price_negative_is_stored :
  is_negative (-1)%float = true ∧
  books lib_B1 !! "B1" = Some book_B1 ∧
  (set_price lib_B1 "B1" (-1)%float).2 = "Price updated." ∧
  price <$> books (set_price lib_B1 "B1" (-1)%float).1 !! "B1" = Some (-1)%float ∧
  price <$> books (set_price lib_B1 "B1" (-1)%float).1 !! "B1"
  ≠ price <$> books lib_B1 !! "B1".
Proof.
  repeat split; try reflexivity.
  intros H. by apply (f_equal (from_option is_negative false)) in H.
Qed.

(** ** Catalog: restock *)

Lemma restock_lines_lookup_None bs items bid :
  bs !! bid = None → restock_lines bs items !! bid = None.
Proof.
  revert bs. induction items as [|[k q] items IH]; intros bs Hb; simpl; [done|].
  destruct (bs !! k) as [b|] eqn:Hk; [|by apply IH].
  apply IH. rewrite lookup_insert_ne; [done|]. intros ->. congruence.
Qed.

Lemma restock_lines_lookup_notin bs items bid :
  bid ∉ items.*1 → restock_lines bs items !! bid = bs !! bid.
Proof.
  revert bs. induction items as [|[k q] items IH]; intros bs Hnotin; simpl; [done|].
  apply not_elem_of_cons in Hnotin as [Hne Hnotin]. simpl in Hne.
  destruct (bs !! k) as [b|] eqn:Hk; rewrite IH by done; [|done].
  by rewrite lookup_insert_ne.
Qed.

Lemma restock_lines_lookup_in bs items bid q b :
  NoDup items.*1 →
  (bid, q) ∈ items →
  bs !! bid = Some b →
  restock_lines bs items !! bid
  = Some (set_available (Z.min (total_copies b) (available_copies b + q)) b).
Proof.
  revert bs. induction items as [|[k q'] items IH]; intros bs Hnd Hin Hb.
  { by apply elem_of_nil in Hin. }
  simpl in Hnd. apply NoDup_cons in Hnd as [Hk Hnd].
  apply elem_of_cons in Hin as [Heq|Hin]; simpl.
  - injection Heq as <- <-. rewrite Hb.
    rewrite restock_lines_lookup_notin by done. by rewrite lookup_insert_eq.
  - assert (k ≠ bid) as Hne.
    { intros ->. apply Hk. apply list_elem_of_fmap. by exists (bid, q). }
    destruct (bs !! k) as [bk|] eqn:Hbk.
    + apply IH; [done..|]. by rewrite lookup_insert_ne.
    + by apply IH.
Qed.

(** C10: restock never fails and answers "Restocked."; a line whose id is in
    the catalog raises that book's available copies by the line's quantity,
    capped at its total; a line whose id is absent is skipped; books named by
    no line, and the rest of the library, are untouched. *)
Theorem restock_spec l items :
  NoDup items.*1 →
  ∃ bs', restock l items = (set_books bs' l, "Restocked.")
    ∧ (∀ bid q b, (bid, q) ∈ items → books l !! bid = Some b →
         bs' !! bid
         = Some (set_available (Z.min (total_copies b) (available_copies b + q)) b))
    ∧ (∀ bid, books l !! bid = None → bs' !! bid = None)
    ∧ (∀ bid, bid ∉ items.*1 → bs' !! bid = books l !! bid).
Proof.
  intros Hnd. exists (restock_lines (books l) items).
  split; [done|]. split; [|split].
  - intros bid q b Hin Hb. by apply restock_lines_lookup_in.
  - intros bid Hb. by apply restock_lines_lookup_None.
  - intros bid Hnotin. by apply restock_lines_lookup_notin.
Qed.

(** Two copies of "B1" come back (2 -> 4 of 5) and the unknown "B9" is
    skipped. *)
Lemma restock_spec_sample :
  ∃ bs', restock lib_B1 [("B1", 2); ("B9", 4)] = (set_books bs' lib_B1, "Restocked.")
    ∧ bs' !! "B1" = Some (set_available 4 book_B1)
    ∧ bs' !! "B9" = None.
Proof.
  destruct (restock_spec lib_B1 [("B1", 2); ("B9", 4)]) as (bs' & Hr & Hin & Hnone & _).
  { apply (bool_decide_unpack _). vm_compute. exact I. }
  exists bs'. split; [exact Hr|]. split.
  - apply (Hin "B1" 2 book_B1); [|reflexivity].
    apply (bool_decide_unpack _). vm_compute. exact I.
  - apply Hnone. reflexivity.
Defined.

(** ** Catalog: can_purchase and purchase *)

Lemma line_fails_dec bs line : {line_fails bs line} + {¬ line_fails bs line}.
Proof.
  destruct line as [bid q]. unfold line_fails; simpl.
  destruct (bs !! bid) as [b|] eqn:Hb; [|by left; left].
  destruct (decide (q ≤ 0)) as [Hq|Hq]; [by left; right; left|].
  destruct (decide (available_copies b < q)) as [Ha|Ha].
  - left. right. right. by exists b.
  - right. intros [?|[?|(b' & Hb' & ?)]]; [done|done|].
    injection Hb' as <-. lia.
Qed.

Lemma line_passes bs bid q :
  ¬ line_fails bs (bid, q) →
  ∃ b, bs !! bid = Some b ∧ 0 < q ∧ q ≤ available_copies b.
Proof.
  intros Hok. unfold line_fails in Hok; simpl in Hok.
  destruct (bs !! bid) as [b|] eqn:Hb; [|by destruct Hok; left].
  exists b. split; [done|]. split.
  - destruct (decide (0 < q)); [done|]. destruct Hok. right; left. lia.
  - destruct (decide (q ≤ available_copies b)); [done|].
    destruct Hok. right; right. exists b. split; [done|lia].
Qed.

(** The check accepts a batch exactly when no line fails. *)
Lemma can_purchase_lines_ok bs items :
  Forall (λ line, ¬ line_fails bs line) items →
  can_purchase_lines bs items = (true, "OK").
Proof.
  induction 1 as [|[bid q] items Hline _ IH]; simpl; [done|].
  apply line_passes in Hline as (b & -> & Hq & Ha).
  rewrite (proj2 (Z.leb_gt q 0) Hq).
  by rewrite (proj2 (Z.ltb_ge (available_copies b) q) Ha).
Qed.

Lemma can_purchase_lines_fail bs items :
  Exists (line_fails bs) items →
  ∃ msg, can_purchase_lines bs items = (false, msg)
    ∧ (is_not_found msg ∨ is_bad_quantity msg ∨ is_insufficient_stock msg).
Proof.
  induction items as [|[bid q] items IH]; intros Hex.
  { by apply Exists_nil in Hex. }
  simpl. destruct (bs !! bid) as [b|] eqn:Hb.
  2:{ eexists. split; [done|]. left. by exists bid. }
  destruct (Z.leb_spec q 0) as [Hq|Hq].
  { eexists. split; [done|]. by right; left. }
  destruct (Z.ltb_spec (available_copies b) q) as [Ha|Ha].
  { eexists. split; [done|]. right; right. by exists (title b). }
  apply IH. apply Exists_cons in Hex as [Hhead|Htail]; [|done].
  exfalso. destruct Hhead as [Hn|[Hn|(b' & Hb' & Hn)]]; simpl in *.
  - congruence.
  - lia.
  - rewrite Hb in Hb'. injection Hb' as <-. lia.
Qed.

Lemma can_purchase_lines_true bs items msg :
  can_purchase_lines bs items = (true, msg) →
  Forall (λ line, ¬ line_fails bs line) items.
Proof.
  intros Hcan. apply Forall_forall. intros line Hin Hfails.
  destruct (can_purchase_lines_fail bs items) as (msg' & Hf & _).
  { apply Exists_exists. by exists line. }
  congruence.
Qed.

(** After a successful check the second loop finds every id. *)
Lemma purchase_lines_spec bs items :
  NoDup items.*1 →
  Forall (λ line, ¬ line_fails bs line) items →
  ∃ bs', purchase_lines bs items = Ok bs'
    ∧ (∀ bid q, (bid, q) ∈ items →
         ∃ b, bs !! bid = Some b
            ∧ bs' !! bid = Some (set_available (available_copies b - q) b))
    ∧ (∀ bid, bid ∉ items.*1 → bs' !! bid = bs !! bid).
Proof.
  revert bs. induction items as [|[k q] items IH]; intros bs Hnd Hok.
  { exists bs. split; [done|]. split; [|done].
    intros bid q Hin. by apply elem_of_nil in Hin. }
  simpl in Hnd. apply NoDup_cons in Hnd as [Hk Hnd].
  apply Forall_cons in Hok as [Hhead Hok].
  apply line_passes in Hhead as (b & Hb & Hq & Ha).
  simpl. rewrite Hb.
  assert (Z.max 0 (available_copies b - q) = available_copies b - q) as -> by lia.
  set (b1 := set_available (available_copies b - q) b).
  assert (set_available (available_copies b - q) b1 = b1) as -> by done.
  destruct (IH (<[k := b1]> bs) Hnd) as (bs' & Hrun & Hin & Hout).
  { apply Forall_forall. intros [k' q'] Hline Hfails.
    rewrite Forall_forall in Hok. apply (Hok (k', q') Hline).
    assert (k ≠ k') as Hne.
    { intros ->. apply Hk. apply list_elem_of_fmap. by exists (k', q'). }
    unfold line_fails in *; simpl in *.
    by rewrite lookup_insert_ne in Hfails. }
  exists bs'. split; [done|]. split.
  - intros bid q0 Hline. apply elem_of_cons in Hline as [Heq|Hline].
    + injection Heq as -> ->. exists b. split; [done|].
      rewrite Hout by done. by rewrite lookup_insert_eq.
    + assert (k ≠ bid) as Hne.
      { intros ->. apply Hk. apply list_elem_of_fmap. by exists (bid, q0). }
      destruct (Hin bid q0 Hline) as (b0 & Hb0 & Hb0').
      rewrite lookup_insert_ne in Hb0 by done. by exists b0.
  - intros bid Hnotin. simpl in Hnotin.
    apply not_elem_of_cons in Hnotin as [Hne Hnotin].
    rewrite Hout by done. by rewrite lookup_insert_ne.
Qed.

Lemma purchase_lines_total bs items :
  Forall (λ line, is_Some (bs !! line.1)) items →
  ∃ bs', purchase_lines bs items = Ok bs'.
Proof.
  revert bs. induction items as [|[k q] items IH]; intros bs Hall; simpl.
  { by exists bs. }
  apply Forall_cons in Hall as [[b Hb] Hall]. simpl in Hb. rewrite Hb.
  apply IH. eapply Forall_impl; [exact Hall|].
  intros [k' q'] Hsome; simpl in *.
  destruct (decide (k = k')) as [->|Hne].
  - by rewrite lookup_insert_eq.
  - by rewrite lookup_insert_ne.
Qed.

(** purchase never raises, and a refused batch leaves the library as it was. *)
Lemma purchase_total l items :
  ∃ l' ok msg, purchase l items = Ok (l', (ok, msg)) ∧ (ok = false → l' = l).
Proof.
  unfold purchase, can_purchase.
  destruct (can_purchase_lines (books l) items) as [[|] msg] eqn:Hcan; simpl.
  - destruct (purchase_lines_total (books l) items) as [bs' ->].
    { apply can_purchase_lines_true in Hcan.
      eapply Forall_impl; [exact Hcan|]. intros [k q] Hok.
      apply line_passes in Hok as (b & Hb & _). by exists b. }
    simpl. by eexists _, true, _.
  - by exists l, false, msg.
Qed.

(** C2 as the code has it: a batch with a failing line (absent id,
    non-positive quantity, or quantity above the available copies) is
    refused with one of the three messages of can_purchase and the library
    is returned unchanged; a batch with no failing line is accepted with
    "Purchased.", every line's book losing exactly the line's quantity and
    every other book staying as it was. *)
Theorem purchase_all_or_nothing l items :
  NoDup items.*1 →
  (Exists (line_fails (books l)) items →
     ∃ msg, purchase l items = Ok (l, (false, msg))
       ∧ (is_not_found msg ∨ is_bad_quantity msg ∨ is_insufficient_stock msg))
  ∧ (Forall (λ line, ¬ line_fails (books l) line) items →
     ∃ bs', purchase l items = Ok (set_books bs' l, (true, "Purchased."))
       ∧ (∀ bid q, (bid, q) ∈ items →
            ∃ b, books l !! bid = Some b
               ∧ bs' !! bid = Some (set_available (available_copies b - q) b))
       ∧ (∀ bid, bid ∉ items.*1 → bs' !! bid = books l !! bid)).
Proof.
  intros Hnd. split.
  - intros Hex. apply can_purchase_lines_fail in Hex as (msg & Hcan & Hmsg).
    exists msg. split; [|done]. unfold purchase, can_purchase. by rewrite Hcan.
  - intros Hok.
    destruct (purchase_lines_spec (books l) items Hnd Hok) as (bs' & Hrun & Hin & Hout).
    exists bs'. split; [|done].
    unfold purchase, can_purchase.
    rewrite (can_purchase_lines_ok _ _ Hok). simpl. by rewrite Hrun.
Qed.

(** Scenario A: with 2 copies of "B1" available, a batch of 2 is accepted
    and leaves none, and a batch of 3 is refused. *)
Lemma purchase_all_or_nothing_scenario :
  (∃ bs', purchase lib_B1 [("B1", 2)] = Ok (set_books bs' lib_B1, (true, "Purchased."))
        ∧ bs' !! "B1" = Some (set_available 0 book_B1))
  ∧ (∃ msg, purchase lib_B1 [("B1", 3)] = Ok (lib_B1, (false, msg))).
Proof.
  split.
  - destruct (purchase_all_or_nothing lib_B1 [("B1", 2)]) as [_ Hok].
    { apply (bool_decide_unpack _). vm_compute. exact I. }
    destruct Hok as (bs' & Hrun & Hin & _).
    { constructor; [|constructor].
      intros [H|[H|(b & Hb & H)]]; simpl in *; [done|lia|].
      rewrite lookup_singleton_eq in Hb. injection Hb as <-. simpl in H. lia. }
    exists bs'. split; [exact Hrun|].
    destruct (Hin "B1" 2) as (b & Hb & Hb'); [by apply list_elem_of_here|].
    injection Hb as <-. exact Hb'.
  - destruct (purchase_all_or_nothing lib_B1 [("B1", 3)]) as [Hfail _].
    { apply (bool_decide_unpack _). vm_compute. exact I. }
    destruct Hfail as (msg & Hrun & _).
    { apply Exists_cons_hd. right; right. exists book_B1. split; [reflexivity|].
      simpl. lia. }
    by exists msg.
Defined.

(** C2 as the claim states it fails: the batch {"B1": 0} on a catalog that
    holds "B1" is refused with "Qty must be > 0.", which is neither the
    not-found nor the insufficient-stock report. *)
Lemma purchase_zero_quantity_message :
  books lib_B1 !! "B1" = Some book_B1 ∧
  purchase lib_B1 [("B1", 0)] = Ok (lib_B1, (false, "Qty must be > 0.")) ∧
  ¬ (is_not_found "Qty must be > 0." ∨ is_insufficient_stock "Qty must be > 0.").
Proof.
  split; [reflexivity|]. split; [reflexivity|].
  intros [[bid H]|[t H]]; simpl in H; discriminate H.
Qed.

(** ** Persistence: load_state, save_state and the round trip *)

Lemma load_item_ok bid d :
  0 ≤ r_total_copies d → load_item bid d = Ok (record_to_book bid d).
Proof.
  intros Hd. unfold load_item, Book_init.
  by rewrite (proj2 (Z.ltb_ge (r_total_copies d) 0) Hd).
Qed.

Lemma load_from_dict_ok l data :
  map_Forall (λ _ d, 0 ≤ r_total_copies d) data →
  load_from_dict l data
  = Ok (set_books (map_imap (λ bid d, Some (record_to_book bid d)) data) l).
Proof.
  intros Hdata. unfold load_from_dict.
  match goal with
  | |- context [map_fold ?f ?b data] =>
      assert (map_fold f b data
              = Ok (map_imap (λ bid d, Some (record_to_book bid d)) data)) as ->
  end; [|done].
  revert Hdata.
  apply (map_fold_weak_ind (λ r (m : gmap string ItemRecord),
    map_Forall (λ _ d, 0 ≤ r_total_copies d) m →
    r = Ok (map_imap (λ bid d, Some (record_to_book bid d)) m))).
  - intros _. by rewrite map_imap_empty.
  - intros bid d m r Hfresh IH Hall.
    apply map_Forall_insert in Hall as [Hd Hall]; [|done].
    rewrite (IH Hall). simpl. rewrite (load_item_ok bid d Hd). simpl.
    by rewrite (map_imap_insert_Some _ _ _ _ (record_to_book bid d)).
Qed.

Lemma load_from_dict_to_dict l0 l :
  map_Forall (λ _ b, 0 ≤ total_copies b) (books l) →
  ∃ l', load_from_dict l0 (to_dict l) = Ok l'
      ∧ lib_name l' = lib_name l0 ∧ users l' = users l0
      ∧ borrow_records l' = borrow_records l0
      ∧ ∀ bid, books l' !! bid = reloaded bid <$> books l !! bid.
Proof.
  intros Hok. eexists. split.
  { apply load_from_dict_ok. unfold to_dict. by apply map_Forall_fmap. }
  do 3 (split; [done|]). intros bid. simpl.
  rewrite map_lookup_imap. unfold to_dict. rewrite lookup_fmap.
  by destruct (books l !! bid).
Qed.

Section StorageFacts.

Context {blob : Type}.
Variable json_dumps : State → blob.
Variable json_load : blob → option State.

(** C9: load_state returns the parsed document when the file exists and
    parses; when the file is missing, cannot be read, or does not parse, it
    returns the empty state (no books, no orders) and no exception reaches
    the caller: get_store then starts from an empty library and ledger. *)
Theorem load_state_spec (f : file blob) :
  (∀ b st, f = Content b → json_load b = Some st → load_state json_load f = st)
  ∧ (f = Absent ∨ f = Unreadable ∨ (∃ b, f = Content b ∧ json_load b = None) →
       load_state json_load f = empty_state
       ∧ st_books empty_state = Some ∅
       ∧ st_orders empty_state = Some []
       ∧ get_store json_load f = Ok (mkStore (Library_init "Digital Library") [])).
Proof.
  split.
  - intros b st -> Hparse. simpl. by rewrite Hparse.
  - intros Hfall.
    assert (load_state json_load f = empty_state) as Hempty.
    { destruct Hfall as [->|[->|(b & -> & Hparse)]]; simpl; [done..|].
      by rewrite Hparse. }
    split; [done|]. split; [done|]. split; [done|].
    unfold get_store. rewrite Hempty. simpl.
    unfold load_from_dict. by rewrite map_fold_empty.
Qed.

(** C6 as the code has it: after persist_now and get_store the orders are
    the same list, and every book comes back under its key with the same
    title, author, total and available copies, price and image URL; an
    uploaded cover (bytes and mime type) is not written and comes back
    empty.  A catalog without uploaded covers comes back equal. *)
Theorem save_load_round_trip (s : Store) :
  json_load (json_dumps (mkState (Some (to_dict (lib s))) (Some (orders s))))
  = Some (mkState (Some (to_dict (lib s))) (Some (orders s))) →
  map_Forall (λ _ b, 0 ≤ total_copies b) (books (lib s)) →
  ∃ s', get_store json_load (persist_now json_dumps s) = Ok s'
      ∧ orders s' = orders s
      ∧ (∀ bid, books (lib s') !! bid = reloaded bid <$> books (lib s) !! bid)
      ∧ ((∀ bid b, books (lib s) !! bid = Some b →
            book_id b = bid ∧ image_bytes b = None ∧ image_mime b = None) →
         books (lib s') = books (lib s)).
Proof.
  intros Hcodec Hok.
  destruct (load_from_dict_to_dict (Library_init "Digital Library") (lib s) Hok)
    as (l' & Hload & _ & _ & _ & Hbooks).
  exists (mkStore l' (orders s)). split.
  { unfold get_store, persist_now, save_state. simpl. rewrite Hcodec. simpl.
    by rewrite Hload. }
  split; [done|]. split; [done|].
  intros Hplain. simpl. apply map_eq. intros bid. rewrite Hbooks.
  destruct (books (lib s) !! bid) as [b|] eqn:Hb; [|done].
  destruct (Hplain bid b Hb) as (Hid & Hbytes & Hmime).
  simpl. f_equal. destruct b; simpl in *. by subst.
Qed.

End StorageFacts.

(** A text that parses is returned as parsed; a text that does not parse
    gives the empty state and an empty store. *)
Lemma load_state_spec_sample :
  load_state doc_load (Content (Some (mkState None None))) = mkState None None
  ∧ load_state doc_load (Content None) = empty_state
  ∧ get_store doc_load (Content None) = Ok (mkStore (Library_init "Digital Library") []).
Proof.
  destruct (load_state_spec doc_load (Content (Some (mkState None None)))) as [Hparse _].
  destruct (load_state_spec doc_load (Content None)) as [_ Hfall].
  split; [by apply (Hparse (Some (mkState None None)))|].
  destruct Hfall as (Hempty & _ & _ & Hstore).
  { right; right. by exists None. }
  split; [exact Hempty | exact Hstore].
Defined.

(** The sample catalog, which has no uploaded cover, and one paid order come
    back equal. *)
Lemma save_load_round_trip_sample :
  ∃ s', get_store doc_load (persist_now doc_dumps (mkStore lib_B1 [order_1 "PAID"]))
        = Ok s'
      ∧ orders s' = [order_1 "PAID"]
      ∧ books (lib s') = books lib_B1.
Proof.
  destruct (save_load_round_trip doc_dumps doc_load (mkStore lib_B1 [order_1 "PAID"]))
    as (s' & Hget & Horders & _ & Hplain).
  { reflexivity. }
  { apply map_Forall_singleton. simpl. lia. }
  exists s'. split; [exact Hget|]. split; [exact Horders|].
  apply Hplain. intros bid b Hb. simpl in Hb.
  apply lookup_singleton_Some in Hb as [<- <-]. by repeat split.
Defined.

(** C6 as the claim states it fails: the uploaded cover of "B2" is lost by
    the round trip, so the reloaded book differs from the stored one. *)
Lemma save_load_drops_uploaded_cover :
  books lib_B2 !! "B2" = Some book_B2 ∧
  image_bytes book_B2 = Some [Byte.x89; Byte.x50] ∧
  get_store doc_load (persist_now doc_dumps (mkStore lib_B2 []))
  = Ok (mkStore (set_books {["B2" := reloaded "B2" book_B2]} lib_B2) []) ∧
  image_bytes (reloaded "B2" book_B2) = None ∧
  get_store doc_load (persist_now doc_dumps (mkStore lib_B2 []))
  ≠ Ok (mkStore lib_B2 []).
Proof.
  split; [reflexivity|]. split; [reflexivity|]. split; [reflexivity|].
  split; [reflexivity|].
  intros H.
  by apply (f_equal (λ r, match r with
                          | Ok s => image_bytes <$> books (lib s) !! "B2"
                          | Raise _ => None
                          end)) in H.
Qed.

(** ** Orders: placing an order *)

(** Lines whose book is gone add nothing to the total. *)
Lemma order_total_from_prune bs t items :
  order_total_from bs t (prune_cart bs items) = order_total_from bs t items.
Proof.
  revert t. induction items as [|[k q] items IH]; intros t; [done|].
  unfold prune_cart in *. simpl. destruct (bs !! k) as [b|] eqn:Hk.
  - rewrite bool_decide_eq_true_2 by eauto. simpl. rewrite Hk.
    destruct (float_of_int q); simpl; [apply IH | done].
  - rewrite bool_decide_eq_false_2; [apply IH|]. by intros [? ?].
Qed.

Section OrderFacts.

Context {blob : Type}.
Variable json_dumps : State → blob.

Local Arguments prune_cart : simpl never.

(** C5: with a non-empty cart whose total could be computed, confirm_order
    first calls purchase on the cart (as pruned by the Buy tab).  When
    purchase refuses, the refusal message is shown and the world (catalog,
    ledger and file) is unchanged.  When it accepts, exactly one order is
    appended, with status PENDING_PAYMENT, the cart's lines, the total
    computed from the catalog's prices (which is the total of the order's
    own lines), the next ORD- number and an empty note; the new store is
    flushed and the cart is emptied. *)
Theorem confirm_order_spec (w : World) (now customer user_id : string)
    (cart : list (string * Z)) (total : float) :
  cart ≠ [] →
  order_total (lib (store w)) cart = Ok total →
  ∃ l' ok msg,
    purchase (lib (store w)) (prune_cart (books (lib (store w))) cart)
    = Ok (l', (ok, msg))
    ∧ if ok then
        ∃ o, confirm_order json_dumps w now customer user_id cart
             = Ok (mkWorld (mkStore l' (orders (store w) ++ [o]))
                           (persist_now json_dumps (mkStore l' (orders (store w) ++ [o]))),
                   [],
                   st_success ("Order " +:+ o_order_id o +:+
                               " created. Please complete payment in 'My Orders'."))
           ∧ o_status o = "PENDING_PAYMENT"
           ∧ o_items o = prune_cart (books (lib (store w))) cart
           ∧ o_total_usd o = total
           ∧ order_total (lib (store w)) (o_items o) = Ok total
           ∧ o_order_id o = "ORD-" +:+ zfill5 (length (orders (store w)) + 1)
           ∧ o_time o = now ∧ o_customer o = customer ∧ o_user_id o = user_id
           ∧ o_admin_note o = ""
      else
        l' = lib (store w)
        ∧ confirm_order json_dumps w now customer user_id cart
          = Ok (w, prune_cart (books (lib (store w))) cart, st_error msg).
Proof.
  intros Hcart Htotal.
  destruct (purchase_total (lib (store w)) (prune_cart (books (lib (store w))) cart))
    as (l' & ok & msg & Hbuy & Hsame).
  exists l', ok, msg. split; [done|].
  unfold confirm_order. destruct cart as [|line cart]; [done|].
  rewrite Htotal. simpl. rewrite Hbuy. simpl.
  destruct ok; simpl.
  - exists (mkOrder ("ORD-" +:+ zfill5 (length (orders (store w)) + 1)) now customer
                    user_id (prune_cart (books (lib (store w))) (line :: cart))
                    "PENDING_PAYMENT" total "").
    split_and!; try done.
    unfold order_total. simpl. by rewrite order_total_from_prune.
  - rewrite (Hsame eq_refl). split; [done|]. by destruct w as [[??] ?].
Qed.

End OrderFacts.

(** Scenario B: two copies of "B1" at 10.00 give a pending order of 20.00,
    numbered ORD-00001, and leave no copy available. *)
Lemma confirm_order_spec_scenario :
  ∃ w' o,
    confirm_order doc_dumps (mkWorld (mkStore lib_B1 []) Absent)
                  "2024-01-01 10:00:00" "bob" "BOB-00001" [("B1", 2)]
    = Ok (w', [], st_success "Order ORD-00001 created. Please complete payment in 'My Orders'.")
    ∧ orders (store w') = [o]
    ∧ o_status o = "PENDING_PAYMENT"
    ∧ o_items o = [("B1", 2)]
    ∧ o_total_usd o = 20%float.
Proof.
  destruct (confirm_order_spec doc_dumps (mkWorld (mkStore lib_B1 []) Absent)
              "2024-01-01 10:00:00" "bob" "BOB-00001" [("B1", 2)] 20%float)
    as (l' & ok & msg & Hbuy & Hrun); [done | reflexivity |].
  assert (ok = true) as ->.
  { apply (f_equal (λ r, match r with
                         | Ok (_, (b, _)) => b
                         | Raise _ => false
                         end)) in Hbuy. by rewrite <-Hbuy. }
  destruct Hrun as (o & Hrun & Hst & Hit & Htot & _ & Hid & _).
  eexists _, o. split.
  { rewrite Hrun, Hid. reflexivity. }
  split; [reflexivity|]. split; [exact Hst|]. split; [exact Hit | exact Htot].
Defined.

(** ** The stock invariant *)

Lemma catalog_ok_insert l bid b :
  catalog_ok l → stock_ok b → map_Forall (λ _ b, stock_ok b) (<[bid := b]> (books l)).
Proof. intros Hl Hb. by apply map_Forall_insert_2. Qed.

Lemma update_book_stock_ok t a n url bytes mime b :
  0 < n → stock_ok (update_book t a n url bytes mime b).
Proof.
  intros Hn. unfold stock_ok.
  rewrite update_book_available, update_book_total. lia.
Qed.

Lemma add_book_catalog_ok l t a bid n url bytes mime l' msg :
  catalog_ok l →
  add_book l t a bid n url bytes mime = Ok (l', msg) →
  catalog_ok l'.
Proof.
  intros Hl. unfold add_book.
  destruct (Z.leb_spec n 0) as [Hn|Hn]; [by intros [= <- _]|].
  destruct (books l !! bid) as [b|] eqn:Hb.
  - intros [= <- _]. apply catalog_ok_insert; [done|].
    by apply update_book_stock_ok.
  - unfold Book_init. rewrite (proj2 (Z.ltb_ge n 0)) by lia. simpl.
    intros [= <- _]. apply catalog_ok_insert; [done|].
    unfold stock_ok; simpl. lia.
Qed.

Lemma set_price_catalog_ok l bid p : catalog_ok l → catalog_ok (set_price l bid p).1.
Proof.
  intros Hl. unfold set_price. destruct (books l !! bid) as [b|] eqn:Hb; [|done].
  apply catalog_ok_insert; [done|]. exact (Hl bid b Hb).
Qed.

Lemma add_stock_catalog_ok l bid qty : catalog_ok l → catalog_ok (add_stock l bid qty).1.
Proof.
  intros Hl. unfold add_stock.
  destruct (Z.leb_spec qty 0) as [Hq|Hq]; [done|].
  destruct (books l !! bid) as [b|] eqn:Hb; [|done].
  apply catalog_ok_insert; [done|].
  pose proof (Hl bid b Hb) as Hb'. unfold stock_ok in *; simpl. lia.
Qed.

Lemma purchase_lines_stock_ok bs items bs' :
  Forall (λ line, 0 ≤ line.2) items →
  map_Forall (λ _ b, stock_ok b) bs →
  purchase_lines bs items = Ok bs' →
  map_Forall (λ _ b, stock_ok b) bs'.
Proof.
  revert bs. induction items as [|[k q] items IH]; intros bs Hq Hbs; simpl.
  { by intros [= <-]. }
  apply Forall_cons in Hq as [Hk Hq]. simpl in Hk.
  destruct (bs !! k) as [b|] eqn:Hb; [|done].
  apply IH; [done|]. apply map_Forall_insert_2; [|done].
  pose proof (Hbs k b Hb) as Hb'. unfold stock_ok in *; simpl. lia.
Qed.

Lemma purchase_catalog_ok l items l' r :
  catalog_ok l → purchase l items = Ok (l', r) → catalog_ok l'.
Proof.
  intros Hl. unfold purchase, can_purchase.
  destruct (can_purchase_lines (books l) items) as [[|] msg] eqn:Hcan; simpl.
  2:{ by intros [= <- _]. }
  destruct (purchase_lines (books l) items) as [bs'|] eqn:Hrun; [|done].
  simpl. intros [= <- _]. unfold catalog_ok; simpl.
  eapply purchase_lines_stock_ok; [|exact Hl|exact Hrun].
  apply can_purchase_lines_true in Hcan.
  eapply Forall_impl; [exact Hcan|]. intros [k q] Hok.
  apply line_passes in Hok as (b & _ & Hq & _). simpl. lia.
Qed.

Lemma restock_lines_stock_ok bs items :
  Forall (λ line, 0 ≤ line.2) items →
  map_Forall (λ _ b, stock_ok b) bs →
  map_Forall (λ _ b, stock_ok b) (restock_lines bs items).
Proof.
  revert bs. induction items as [|[k q] items IH]; intros bs Hq Hbs; simpl; [done|].
  apply Forall_cons in Hq as [Hk Hq]. simpl in Hk.
  destruct (bs !! k) as [b|] eqn:Hb; [|by apply IH].
  apply IH; [done|]. apply map_Forall_insert_2; [|done].
  pose proof (Hbs k b Hb) as Hb'. unfold stock_ok in *; simpl. lia.
Qed.

Lemma borrow_book_catalog_ok l user_name bid :
  catalog_ok l → catalog_ok (borrow_book l user_name bid).1.
Proof.
  intros Hl. unfold borrow_book.
  destruct (books l !! bid) as [b|] eqn:Hb; [|done].
  unfold is_available. destruct (Z.ltb_spec 0 (available_copies b)) as [Ha|Ha]; [|done].
  simpl. unfold get_or_create_user.
  pose proof (Hl bid b Hb) as Hb'.
  destruct (users l !! user_name); simpl;
    (apply map_Forall_insert_2; [|done]); unfold stock_ok in *; simpl; lia.
Qed.

Lemma return_book_catalog_ok l user_name bid :
  catalog_ok l → catalog_ok (return_book l user_name bid).1.
Proof.
  intros Hl. unfold return_book.
  destruct (books l !! bid) as [b|] eqn:Hb; [|done].
  destruct (users l !! user_name) as [u|]; [|done].
  destruct (User_return_book bid u) as [u' [|]]; [|done].
  simpl. apply map_Forall_insert_2; [|done].
  pose proof (Hl bid b Hb) as Hb'. unfold stock_ok in *; simpl. lia.
Qed.

(** Every operation keeps 0 <= available <= total on every book; restock
    does so when no line has a negative quantity. *)
Theorem catalog_ok_preserved l :
  catalog_ok l →
  (∀ t a bid n url bytes mime l' msg,
     add_book l t a bid n url bytes mime = Ok (l', msg) → catalog_ok l')
  ∧ (∀ bid p, catalog_ok (set_price l bid p).1)
  ∧ (∀ bid qty, catalog_ok (add_stock l bid qty).1)
  ∧ (∀ items l' r, purchase l items = Ok (l', r) → catalog_ok l')
  ∧ (∀ items, Forall (λ line, 0 ≤ line.2) items → catalog_ok (restock l items).1)
  ∧ (∀ user_name bid, catalog_ok (borrow_book l user_name bid).1)
  ∧ (∀ user_name bid, catalog_ok (return_book l user_name bid).1).
Proof.
  intros Hl. split_and!.
  - intros. by eapply add_book_catalog_ok.
  - intros. by apply set_price_catalog_ok.
  - intros. by apply add_stock_catalog_ok.
  - intros. by eapply purchase_catalog_ok.
  - intros items Hq. by apply restock_lines_stock_ok.
  - intros. by apply borrow_book_catalog_ok.
  - intros. by apply return_book_catalog_ok.
Qed.

Lemma catalog_ok_lib_B1 : catalog_ok lib_B1.
Proof. apply map_Forall_singleton. unfold stock_ok; simpl. lia. Qed.

(** Restocking 2 copies and adding 4 copies keep the sample catalog within
    its bounds. *)
Lemma catalog_ok_preserved_sample :
  catalog_ok (restock lib_B1 [("B1", 2)]).1 ∧ catalog_ok (add_stock lib_B1 "B1" 4).1.
Proof.
  destruct (catalog_ok_preserved lib_B1 catalog_ok_lib_B1)
    as (_ & _ & Hstock & _ & Hrestock & _).
  split; [|apply Hstock].
  apply Hrestock. constructor; [simpl; lia | constructor].
Defined.

(** C1 at a restock line with a negative quantity: "B1" has 2 of 5 copies
    available, restock({"B1": -3}) leaves -1 available, and the invariant
    that held before the call does not hold after it. *)
Theorem restock_negative_quantity_breaks_stock :
  catalog_ok lib_B1 ∧
  available_copies <$> books (restock lib_B1 [("B1", -3)]).1 !! "B1" = Some (-1) ∧
  ¬ catalog_ok (restock lib_B1 [("B1", -3)]).1.
Proof.
  split; [apply catalog_ok_lib_B1|]. split; [reflexivity|].
  intros Hbad.
  pose proof (Hbad "B1" (set_available (-1) book_B1) eq_refl) as [Hneg _].
  simpl in Hneg. lia.
Qed.

(** ** Orders: status changes *)

Section StatusFacts.

Context {blob : Type}.
Variable json_dumps : State → blob.


End StatusFacts.


(** C3 at a delivered order and at a second cancellation.  "B1" has 2 of 5
    copies available and order ORD-00001 holds 2 copies of it.  Cancelling
    the delivered order is not refused: its status becomes
    "CANCELLED (RESTOCKED)" and 4 copies are available.  Cancelling a paid
    order twice is not refused the second time either, and the second call
    restocks again: 4 copies are available after the first call and 5 after
    the second. *)
Theorem cancel_restock_ignores_status :
  (∃ w', cancel_restock doc_dumps (world_B1 "DELIVERED") 0 = Ok w'
       ∧ o_status <$> orders (store w') !! 0%nat = Some "CANCELLED (RESTOCKED)"
       ∧ available_copies <$> books (lib (store w')) !! "B1" = Some 4)
  ∧ (∃ w1 w2, cancel_restock doc_dumps (world_B1 "PAID") 0 = Ok w1
       ∧ o_status <$> orders (store w1) !! 0%nat = Some "CANCELLED (RESTOCKED)"
       ∧ available_copies <$> books (lib (store w1)) !! "B1" = Some 4
       ∧ cancel_restock doc_dumps w1 0 = Ok w2
       ∧ available_copies <$> books (lib (store w2)) !! "B1" = Some 5).
Proof.
  split.
  - eexists. split; [reflexivity|]. by split.
  - eexists _, _. split; [reflexivity|]. split; [reflexivity|].
    split; [reflexivity|]. split; [reflexivity|]. reflexivity.
Qed.

(** ** Catalog: the cover of a book *)

(** Updating an existing book keeps at most one cover: an upload clears the
    URL, a non-empty URL (without upload) clears the uploaded bytes and
    their mime type, and without either the cover is left as it was. *)
Theorem update_book_one_cover t a n url bytes mime b :
  (is_Some bytes →
     image_bytes (update_book t a n url bytes mime b) = bytes
     ∧ image_mime (update_book t a n url bytes mime b) = mime
     ∧ image_url (update_book t a n url bytes mime b) = None)
  ∧ (bytes = None → truthy url = true →
     image_url (update_book t a n url bytes mime b) = url
     ∧ image_bytes (update_book t a n url bytes mime b) = None
     ∧ image_mime (update_book t a n url bytes mime b) = None)
  ∧ (one_cover b → one_cover (update_book t a n url bytes mime b)).
Proof.
  unfold update_book, one_cover, has_inline_cover, has_url_cover. split_and!.
  - intros [x ->]. done.
  - intros -> ->. done.
  - intros Hb. destruct bytes; simpl.
    + intros [_ [? ?]]. done.
    + destruct (truthy url); simpl; [|done]. intros [[? ?] _]. done.
Qed.

(** C8 at the creation of a book with both an uploaded image and a URL:
    add_book stores both, so two covers are set at once. *)
Theorem add_book_new_keeps_both_covers :
  ∃ b, add_book (Library_init "Digital Library") "T" "A" "B1" 1
                (Some "https://example.org/c.png") (Some [Byte.x89]) (Some "image/png")
       = Ok (set_books {["B1" := b]} (Library_init "Digital Library"),
             "Book added successfully.")
     ∧ image_url b = Some "https://example.org/c.png"
     ∧ image_bytes b = Some [Byte.x89]
     ∧ ¬ one_cover b.
Proof.
  eexists. split; [reflexivity|]. split; [reflexivity|]. split; [reflexivity|].
  intros Hone. apply Hone. split; by eexists.
Qed.

(** ** Catalog: more on add_book and add_stock *)

(** add_book never raises.  It leaves users, borrow records and every other
    book alone; a total that is not positive is refused without any change;
    a new id gets a book whose copies are all available and whose price is
    0.0. *)
Theorem add_book_frame l t a bid n url bytes mime :
  ∃ l' msg, add_book l t a bid n url bytes mime = Ok (l', msg)
    ∧ lib_name l' = lib_name l ∧ users l' = users l
    ∧ borrow_records l' = borrow_records l
    ∧ (∀ other, other ≠ bid → books l' !! other = books l !! other)
    ∧ (n ≤ 0 → l' = l ∧ msg = "total_copies must be > 0.")
    ∧ (0 < n → books l !! bid = None →
         books l' !! bid = Some (mkBook t a bid n n 0%float url bytes mime)
         ∧ msg = "Book added successfully.").
Proof.
  unfold add_book. destruct (Z.leb_spec n 0) as [Hn|Hn].
  { exists l, "total_copies must be > 0.". split_and!; try done. lia. }
  destruct (books l !! bid) as [b|] eqn:Hb.
  - eexists _, _. split; [done|]. simpl. split_and!; try done.
    + intros other Hne. by rewrite lookup_insert_ne.
    + lia.
  - unfold Book_init. rewrite (proj2 (Z.ltb_ge n 0)) by lia. simpl.
    eexists _, _. split; [done|]. simpl. split_and!; try done.
    + intros other Hne. by rewrite lookup_insert_ne.
    + lia.
    + intros _ _. by rewrite lookup_insert_eq.
Qed.

Lemma update_book_twice t a n url bytes mime b :
  0 < n →
  update_book t a n url bytes mime (update_book t a n url bytes mime b)
  = update_book t a n url bytes mime b.
Proof.
  intros Hn.
  pose proof (update_book_available t a n url bytes mime b) as Hav.
  pose proof (update_book_total t a n url bytes mime b) as Htot.
  pose proof (update_book_available t a n url bytes mime
                (update_book t a n url bytes mime b)) as Hav2.
  pose proof (update_book_total t a n url bytes mime
                (update_book t a n url bytes mime b)) as Htot2.
  rewrite Htot, Hav in Hav2.
  assert (available_copies (update_book t a n url bytes mime
                              (update_book t a n url bytes mime b))
          = available_copies (update_book t a n url bytes mime b)) as Heq.
  { rewrite Hav2, Hav. lia. }
  revert Heq Htot Htot2. unfold update_book.
  destruct bytes as [bs|]; [|destruct (truthy url)]; simpl;
    intros Heq Htot Htot2; by rewrite Heq.
Qed.

(** Saving the same book twice does not add stock: the second identical
    add_book answers "Book updated (total copies set)." and leaves the
    book's total, available copies, title, author and price as the first
    call left them; when the id existed before the first call, the second
    call changes nothing at all. *)
Theorem add_book_twice l t a bid n url bytes mime l1 msg1 :
  0 < n →
  add_book l t a bid n url bytes mime = Ok (l1, msg1) →
  ∃ l2 b1 b2,
    add_book l1 t a bid n url bytes mime = Ok (l2, "Book updated (total copies set).")
    ∧ books l1 !! bid = Some b1 ∧ books l2 !! bid = Some b2
    ∧ total_copies b1 = n ∧ total_copies b2 = n
    ∧ available_copies b2 = available_copies b1
    ∧ title b2 = title b1 ∧ author b2 = author b1 ∧ price b2 = price b1
    ∧ (is_Some (books l !! bid) → l2 = l1).
Proof.
  intros Hn. unfold add_book at 1. rewrite (proj2 (Z.leb_gt n 0) Hn).
  destruct (books l !! bid) as [b|] eqn:Hb.
  - intros [= <- _].
    exists (set_books (<[bid := update_book t a n url bytes mime b]> (books l)) l),
           (update_book t a n url bytes mime b), (update_book t a n url bytes mime b).
    unfold add_book. rewrite (proj2 (Z.leb_gt n 0) Hn). simpl.
    rewrite lookup_insert_eq, update_book_twice, insert_insert_eq by done.
    split_and!; try done; apply update_book_total.
  - unfold Book_init. rewrite (proj2 (Z.ltb_ge n 0)) by lia. simpl.
    intros [= <- _].
    eexists _, (mkBook t a bid n n 0%float url bytes mime),
            (update_book t a n url bytes mime (mkBook t a bid n n 0%float url bytes mime)).
    unfold add_book. rewrite (proj2 (Z.leb_gt n 0) Hn). simpl.
    rewrite lookup_insert_eq. split; [done|]. simpl. rewrite lookup_insert_eq.
    split_and!; try done;
      try apply update_book_total;
      try (rewrite update_book_available; simpl; lia);
      try apply update_book_frame.
Qed.

(** Saving "B1" with total 10 twice leaves 7 available, not more. *)
Lemma add_book_twice_sample :
  ∃ l1 l2, add_book lib_B1 "T" "A" "B1" 10 None None None
           = Ok (l1, "Book updated (total copies set).")
    ∧ add_book l1 "T" "A" "B1" 10 None None None
      = Ok (l2, "Book updated (total copies set).")
    ∧ l2 = l1.
Proof.
  destruct (add_book_twice lib_B1 "T" "A" "B1" 10 None None None
              (set_books (<["B1" := update_book "T" "A" 10 None None None book_B1]>
                            (books lib_B1)) lib_B1)
              "Book updated (total copies set)." ltac:(lia) eq_refl)
    as (l2 & b1 & b2 & Hrun & _ & _ & _ & _ & _ & _ & _ & _ & Hsame).
  eexists _, l2. split; [reflexivity|]. split; [exact Hrun|].
  apply Hsame. by eexists.
Defined.

(** add_stock refuses a quantity that is not positive and an unknown id
    without any change; otherwise it raises the total and, for a book whose
    available copies do not exceed its total, the available copies by the
    quantity, so the number of copies that are out stays the same. *)
Theorem add_stock_spec l bid qty :
  (qty ≤ 0 → add_stock l bid qty = (l, "qty must be > 0."))
  ∧ (0 < qty → books l !! bid = None → add_stock l bid qty = (l, "Book ID not found."))
  ∧ (0 < qty → ∀ b, books l !! bid = Some b →
       available_copies b ≤ total_copies b →
       ∃ b', add_stock l bid qty
             = (set_books (<[bid := b']> (books l)) l, "Stock added.")
           ∧ total_copies b' = total_copies b + qty
           ∧ available_copies b' = available_copies b + qty
           ∧ total_copies b' - available_copies b'
             = total_copies b - available_copies b
           ∧ title b' = title b ∧ author b' = author b ∧ price b' = price b
           ∧ image_url b' = image_url b ∧ image_bytes b' = image_bytes b).
Proof.
  unfold add_stock. split_and!.
  - intros Hq. by rewrite (proj2 (Z.leb_le qty 0) Hq).
  - intros Hq Hb. by rewrite (proj2 (Z.leb_gt qty 0) Hq), Hb.
  - intros Hq b Hb Hle. rewrite (proj2 (Z.leb_gt qty 0) Hq), Hb.
    eexists. split; [done|]. simpl. split_and!; try done; lia.
Qed.

(** Four more copies of "B1": 9 in total, 6 available, 3 still out. *)
Lemma add_stock_spec_sample :
  ∃ b', add_stock lib_B1 "B1" 4
        = (set_books (<["B1" := b']> (books lib_B1)) lib_B1, "Stock added.")
      ∧ total_copies b' = 9 ∧ available_copies b' = 6.
Proof.
  destruct (add_stock_spec lib_B1 "B1" 4) as (_ & _ & Hadd).
  destruct (Hadd ltac:(lia) book_B1 eq_refl ltac:(simpl; lia))
    as (b' & Hrun & Htot & Hav & _).
  exists b'. split; [exact Hrun|]. split; [exact Htot | exact Hav].
Defined.

(** ** Catalog: which failure can_purchase reports *)

(** can_purchase reports the first failing line of the batch: an absent id
    with "Book ID not found: <id>", otherwise a non-positive quantity with
    "Qty must be > 0.", otherwise the shortage with the book's title. *)
Theorem can_purchase_first_failure l pre bid q post :
  Forall (λ line, ¬ line_fails (books l) line) pre →
  line_fails (books l) (bid, q) →
  can_purchase l (pre ++ (bid, q) :: post)
  = (false,
     match books l !! bid with
     | None => "Book ID not found: " +:+ bid
     | Some b => if q <=? 0 then "Qty must be > 0."
                 else "Not enough stock for " +:+ title b +:+ "."
     end).
Proof.
  intros Hpre Hfail. unfold can_purchase.
  induction Hpre as [|[k q'] pre Hline _ IH]; simpl.
  - destruct (books l !! bid) as [b|] eqn:Hb; [|done].
    destruct (Z.leb_spec q 0) as [Hq|Hq]; [done|].
    destruct (Z.ltb_spec (available_copies b) q) as [Ha|Ha]; [done|].
    exfalso. destruct Hfail as [Hn|[Hn|(b' & Hb' & Hn)]]; simpl in *.
    + congruence.
    + lia.
    + rewrite Hb in Hb'. injection Hb' as <-. lia.
  - apply line_passes in Hline as (b & -> & Hq & Ha).
    rewrite (proj2 (Z.leb_gt q' 0) Hq).
    by rewrite (proj2 (Z.ltb_ge (available_copies b) q') Ha).
Qed.

(** A batch whose first line is fine and whose second line asks for more
    than is available names the second line's book. *)
Lemma can_purchase_first_failure_sample :
  can_purchase lib_B1 [("B1", 1); ("B1", 3); ("B9", 1)]
  = (false, "Not enough stock for T.").
Proof.
  apply (can_purchase_first_failure lib_B1 [("B1", 1)] "B1" 3 [("B9", 1)]).
  - constructor; [|constructor].
    intros [H|[H|(b & Hb & H)]]; simpl in *; [done|lia|].
    rewrite lookup_singleton_eq in Hb. injection Hb as <-. simpl in H. lia.
  - right; right. exists book_B1. split; [reflexivity|]. simpl. lia.
Defined.

(** ** Catalog: purchase followed by restock *)

Lemma restock_after_purchase_lines bs items bs' :
  map_Forall (λ _ b, stock_ok b) bs →
  NoDup items.*1 →
  Forall (λ line, ¬ line_fails bs line) items →
  purchase_lines bs items = Ok bs' →
  restock_lines bs' items = bs.
Proof.
  intros Hbs Hnd Hok Hrun.
  destruct (purchase_lines_spec bs items Hnd Hok) as (bs0 & Hrun0 & Hin & Hout).
  rewrite Hrun in Hrun0. injection Hrun0 as <-.
  apply map_eq. intros bid.
  destruct (decide (bid ∈ items.*1)) as [Hmem|Hmem].
  - apply list_elem_of_fmap in Hmem as ([k q] & -> & Hline). simpl.
    destruct (Hin k q Hline) as (b & Hb & Hb').
    rewrite (restock_lines_lookup_in bs' items k q _ Hnd Hline Hb'), Hb.
    pose proof (Hbs k b Hb) as [Hlo Hhi].
    f_equal. destruct b; unfold set_available; simpl in *. f_equal. lia.
  - rewrite restock_lines_lookup_notin by done. by apply Hout.
Qed.

(** Giving back exactly what an accepted purchase took restores the
    library: on a catalog within its bounds, restock of the same batch
    undoes purchase. *)
Theorem purchase_then_restock l items l' msg :
  catalog_ok l →
  NoDup items.*1 →
  purchase l items = Ok (l', (true, msg)) →
  restock l' items = (l, "Restocked.").
Proof.
  intros Hl Hnd. unfold purchase, can_purchase.
  destruct (can_purchase_lines (books l) items) as [[|] msg0] eqn:Hcan; simpl; [|done].
  destruct (purchase_lines (books l) items) as [bs'|] eqn:Hrun; [|done].
  simpl. intros [= <- _]. unfold restock. simpl.
  rewrite (restock_after_purchase_lines (books l) items bs' Hl Hnd); [|by eapply can_purchase_lines_true|done].
  by destruct l.
Qed.

(** Two copies of "B1" bought and given back. *)
Lemma purchase_then_restock_sample :
  ∃ l', purchase lib_B1 [("B1", 2)] = Ok (l', (true, "Purchased."))
      ∧ restock l' [("B1", 2)] = (lib_B1, "Restocked.").
Proof.
  eexists. split; [reflexivity|].
  apply (purchase_then_restock lib_B1 [("B1", 2)] _ "Purchased.").
  - apply map_Forall_singleton. unfold stock_ok. simpl. lia.
  - apply (bool_decide_unpack _). vm_compute. exact I.
  - reflexivity.
Defined.

(** ** Borrowing and returning *)

Lemma remove_first_snoc x l : remove_first x (l ++ [x]) ≡ₚ l.
Proof.
  induction l as [|y l IH]; simpl.
  - by rewrite String.eqb_refl.
  - destruct (String.eqb_spec y x) as [->|Hne].
    + by rewrite <-Permutation_cons_append.
    + by rewrite IH.
Qed.

Lemma pop_record_snoc u bid t rs :
  record_key <$> pop_record u bid (rs ++ [mkBorrowRecord u bid t])
  ≡ₚ record_key <$> rs.
Proof.
  induction rs as [|r rs IH]; simpl.
  - by rewrite !String.eqb_refl.
  - destruct (String.eqb_spec (br_user r) u) as [Hu|Hu];
      destruct (String.eqb_spec (br_book_id r) bid) as [Hb|Hb]; simpl;
      try by rewrite IH.
    rewrite fmap_app. simpl. rewrite <-Permutation_cons_append.
    unfold record_key at 1 3. simpl. by rewrite Hu, Hb.
Qed.

(** Borrowing an available book and returning it gives the catalog back as
    it was (for a book within its bounds); the user ends with the same
    books and the borrow records with the same entries as before, up to
    their order; nobody else's list changes. *)
Theorem borrow_then_return l u bid b :
  books l !! bid = Some b →
  stock_ok b →
  0 < available_copies b →
  let l1 := (borrow_book l u bid).1 in
  let l2 := (return_book l1 u bid).1 in
  (borrow_book l u bid).2 = u +:+ " borrowed '" +:+ title b +:+ "' successfully."
  ∧ available_copies <$> books l1 !! bid = Some (available_copies b - 1)
  ∧ (return_book l1 u bid).2 = u +:+ " returned '" +:+ title b +:+ "' successfully."
  ∧ books l2 = books l
  ∧ (∃ u2, users l2 !! u = Some u2
         ∧ borrowed_books u2 ≡ₚ from_option borrowed_books [] (users l !! u))
  ∧ (∀ other, other ≠ u → users l2 !! other = users l !! other)
  ∧ record_key <$> borrow_records l2 ≡ₚ record_key <$> borrow_records l.
Proof.
  intros Hb [Hlo Hhi] Hav. unfold borrow_book. rewrite Hb.
  unfold is_available. rewrite (proj2 (Z.ltb_lt 0 (available_copies b)) Hav). simpl.
  assert (∃ usr us, get_or_create_user l u
                    = (mkLibrary (lib_name l) (books l) us (borrow_records l), usr)
          ∧ borrowed_books usr = from_option borrowed_books [] (users l !! u)
          ∧ ∀ other, other ≠ u → us !! other = users l !! other)
    as (usr & us & -> & Husr & Hus).
  { unfold get_or_create_user. destruct (users l !! u) as [usr|] eqn:Hu.
    - exists usr, (users l). by destruct l.
    - eexists _, _. split; [done|]. split; [done|].
      intros other Hne. by rewrite lookup_insert_ne. }
  simpl. split; [done|]. rewrite lookup_insert_eq. split; [done|].
  unfold return_book. simpl. rewrite !lookup_insert_eq.
  unfold User_return_book, User_borrow. simpl.
  rewrite bool_decide_eq_true_2 by (apply elem_of_app; right; apply list_elem_of_here).
  simpl. split; [done|]. split_and!.
  - rewrite insert_insert_eq.
    assert (Z.min (total_copies b) (available_copies b - 1 + 1) = available_copies b)
      as -> by lia.
    apply insert_id. rewrite Hb. by destruct b.
  - rewrite lookup_insert_eq. eexists. split; [done|]. simpl.
    by rewrite remove_first_snoc, Husr.
  - intros other Hne. rewrite !lookup_insert_ne by done. by apply Hus.
  - apply pop_record_snoc.
Qed.

(** bob borrows "B1" and brings it back. *)
Lemma borrow_then_return_sample :
  books (return_book (borrow_book lib_B1 "bob" "B1").1 "bob" "B1").1 = books lib_B1
  ∧ available_copies <$> books (borrow_book lib_B1 "bob" "B1").1 !! "B1" = Some 1.
Proof.
  destruct (borrow_then_return lib_B1 "bob" "B1" book_B1 eq_refl)
    as (_ & Hout & _ & Hbooks & _).
  - unfold stock_ok. simpl. lia.
  - simpl. lia.
  - split; [exact Hbooks | exact Hout].
Defined.

(** ** Borrow records and users' lists agree *)

Lemma get_or_create_user_spec l u :
  ∃ usr us, get_or_create_user l u
            = (mkLibrary (lib_name l) (books l) us (borrow_records l), usr)
    ∧ borrowed_books usr = from_option borrowed_books [] (users l !! u)
    ∧ ∀ other, other ≠ u → us !! other = users l !! other.
Proof.
  unfold get_or_create_user. destruct (users l !! u) as [usr|] eqn:Hu.
  - exists usr, (users l). by destruct l.
  - eexists _, _. split; [done|]. split; [done|].
    intros other Hne. by rewrite lookup_insert_ne.
Qed.

Lemma count_remove_first_eq x (l : list string) :
  x ∈ l →
  S (length (filter (λ z, z = x) (remove_first x l))) = length (filter (λ z, z = x) l).
Proof.
  induction l as [|y l IH]; [by intros ?%elem_of_nil|].
  intros Hin. simpl. destruct (String.eqb_spec y x) as [->|Hne].
  - by rewrite filter_cons_True.
  - apply elem_of_cons in Hin as [->|Hin]; [done|].
    rewrite !filter_cons_False by done. by apply IH.
Qed.

Lemma count_remove_first_ne x y (l : list string) :
  y ≠ x →
  filter (λ z, z = y) (remove_first x l) = filter (λ z, z = y) l.
Proof.
  intros Hne. induction l as [|z l IH]; [done|].
  simpl. destruct (String.eqb_spec z x) as [->|Hzx].
  - by rewrite filter_cons_False by done.
  - rewrite !filter_cons. by rewrite IH.
Qed.

Lemma count_pop_record_eq u bid rs :
  (0 < length (filter (λ r, br_user r = u ∧ br_book_id r = bid) rs))%nat →
  S (length (filter (λ r, br_user r = u ∧ br_book_id r = bid) (pop_record u bid rs)))
  = length (filter (λ r, br_user r = u ∧ br_book_id r = bid) rs).
Proof.
  induction rs as [|r rs IH]; simpl; [lia|].
  destruct (String.eqb_spec (br_user r) u) as [Hu|Hu];
    destruct (String.eqb_spec (br_book_id r) bid) as [Hb|Hb]; simpl.
  - intros _. by rewrite filter_cons_True.
  - rewrite !filter_cons_False by (intros [??]; congruence). apply IH.
  - rewrite !filter_cons_False by (intros [??]; congruence). apply IH.
  - rewrite !filter_cons_False by (intros [??]; congruence). apply IH.
Qed.

Lemma count_pop_record_ne u bid u' bid' rs :
  (u', bid') ≠ (u, bid) →
  filter (λ r, br_user r = u' ∧ br_book_id r = bid') (pop_record u bid rs)
  = filter (λ r, br_user r = u' ∧ br_book_id r = bid') rs.
Proof.
  intros Hne. induction rs as [|r rs IH]; [done|]. simpl.
  destruct (String.eqb_spec (br_user r) u) as [Hu|Hu];
    destruct (String.eqb_spec (br_book_id r) bid) as [Hb|Hb]; simpl;
    try (rewrite !filter_cons; by rewrite IH).
  rewrite filter_cons_False; [done|]. intros [??]. apply Hne. congruence.
Qed.

Lemma ledger_consistent_same l l' :
  users l' = users l → borrow_records l' = borrow_records l →
  ledger_consistent l → ledger_consistent l'.
Proof.
  intros Hu Hr Hl u bid. unfold record_count, borrowed_count.
  rewrite Hu, Hr. apply Hl.
Qed.

Lemma borrow_book_ledger_consistent l u bid :
  ledger_consistent l → ledger_consistent (borrow_book l u bid).1.
Proof.
  intros Hl. unfold borrow_book.
  destruct (books l !! bid) as [b|]; [|done].
  destruct (is_available b); [|done]. simpl.
  destruct (get_or_create_user_spec l u) as (usr & us & -> & Husr & Hus).
  intros u' bid'. specialize (Hl u' bid'). revert Hl.
  unfold record_count, borrowed_count. simpl.
  rewrite filter_app, length_app. intros ->.
  destruct (decide (u' = u)) as [->|Hu].
  - rewrite lookup_insert_eq. simpl. rewrite filter_app, length_app, Husr.
    f_equal. destruct (decide (bid = bid')) as [->|Hb].
    + by rewrite !filter_cons_True.
    + rewrite !filter_cons_False; [done|done|]. simpl. intros [??]; congruence.
  - rewrite lookup_insert_ne, Hus by done.
    rewrite filter_cons_False; [simpl; lia|]. simpl. intros [??]; congruence.
Qed.

Lemma return_book_ledger_consistent l u bid :
  ledger_consistent l → ledger_consistent (return_book l u bid).1.
Proof.
  intros Hl. unfold return_book.
  destruct (books l !! bid) as [b|]; [|done].
  destruct (users l !! u) as [usr|] eqn:Husr; [|done].
  unfold User_return_book. case_bool_decide as Hin; [|done]. simpl.
  intros u' bid'. unfold record_count, borrowed_count. simpl.
  pose proof (Hl u bid) as Hcount. unfold record_count, borrowed_count in Hcount.
  rewrite Husr in Hcount. simpl in Hcount.
  pose proof (count_remove_first_eq bid (borrowed_books usr) Hin) as Hrem.
  destruct (decide (u' = u)) as [->|Hu].
  - rewrite lookup_insert_eq. simpl.
    destruct (decide (bid' = bid)) as [->|Hb].
    + pose proof (count_pop_record_eq u bid (borrow_records l)) as Hpop. lia.
    + rewrite count_remove_first_ne by done.
      rewrite count_pop_record_ne by congruence.
      specialize (Hl u bid'). unfold record_count, borrowed_count in Hl.
      by rewrite Husr in Hl.
  - rewrite lookup_insert_ne by done.
    rewrite count_pop_record_ne by congruence. apply Hl.
Qed.

(** For every user and book, the number of borrow records equals the number
    of times the book is in the user's list: borrow_book and return_book
    keep this agreement, and the operations on stock and prices do not touch
    it.  It holds in a library without users and records. *)
Theorem ledger_consistent_preserved l :
  ledger_consistent l →
  (∀ u bid, ledger_consistent (borrow_book l u bid).1)
  ∧ (∀ u bid, ledger_consistent (return_book l u bid).1)
  ∧ (∀ t a bid n url bytes mime l' msg,
       add_book l t a bid n url bytes mime = Ok (l', msg) → ledger_consistent l')
  ∧ (∀ bid p, ledger_consistent (set_price l bid p).1)
  ∧ (∀ bid qty, ledger_consistent (add_stock l bid qty).1)
  ∧ (∀ items l' r, purchase l items = Ok (l', r) → ledger_consistent l')
  ∧ (∀ items, ledger_consistent (restock l items).1)
  ∧ (∀ n, ledger_consistent (Library_init n)).
Proof.
  intros Hl. split_and!.
  - intros. by apply borrow_book_ledger_consistent.
  - intros. by apply return_book_ledger_consistent.
  - intros t a bid n url bytes mime l' msg. unfold add_book.
    destruct (n <=? 0); [by intros [= <- _]|].
    destruct (books l !! bid); [by intros [= <- _]|].
    unfold Book_init. destruct (n <? 0); [done|]. by intros [= <- _].
  - intros bid p. unfold set_price. by destruct (books l !! bid).
  - intros bid qty. unfold add_stock.
    destruct (qty <=? 0); [done|]. by destruct (books l !! bid).
  - intros items l' r. unfold purchase.
    destruct (can_purchase l items) as [[|] msg]; simpl; [|by intros [= <- _]].
    destruct (purchase_lines (books l) items); [|done]. by intros [= <- _].
  - done.
  - done.
Qed.

(** A library without users and records stays consistent when bob borrows
    "B1" and when he returns a book that is not in the catalog. *)
Lemma ledger_consistent_preserved_sample :
  ledger_consistent (borrow_book lib_B1 "bob" "B1").1
  ∧ ledger_consistent (return_book lib_B1 "bob" "B7").1.
Proof.
  destruct (ledger_consistent_preserved lib_B1) as (Hborrow & Hreturn & _); [done|].
  split; [apply Hborrow | apply Hreturn].
Defined.

(** ** Persistence: what get_store accepts and what it raises *)

Lemma load_item_negative bid d :
  r_total_copies d < 0 →
  load_item bid d = Raise (ValueError "total_copies cannot be negative").
Proof.
  intros Hd. unfold load_item, Book_init.
  by rewrite (proj2 (Z.ltb_lt (r_total_copies d) 0) Hd).
Qed.

Lemma load_from_dict_raise l data :
  ¬ map_Forall (λ _ d, 0 ≤ r_total_copies d) data →
  load_from_dict l data = Raise (ValueError "total_copies cannot be negative").
Proof.
  intros Hbad. unfold load_from_dict.
  match goal with
  | |- context [map_fold ?f ?b data] =>
      assert (map_fold f b data
              = Raise (ValueError "total_copies cannot be negative")) as ->
  end; [|done].
  revert Hbad.
  apply (map_fold_weak_ind (λ r (m : gmap string ItemRecord),
    (map_Forall (λ _ d, 0 ≤ r_total_copies d) m → ∃ bs, r = Ok bs)
    ∧ (¬ map_Forall (λ _ d, 0 ≤ r_total_copies d) m →
       r = Raise (ValueError "total_copies cannot be negative")))).
  - split; [by eexists|]. intros Hne. destruct Hne. apply map_Forall_empty.
  - intros bid d m r Hfresh [IHok IHbad].
    destruct (decide (map_Forall (λ _ d, 0 ≤ r_total_copies d) m)) as [Hm|Hm].
    + destruct (IHok Hm) as [bs ->]. simpl.
      destruct (decide (0 ≤ r_total_copies d)) as [Hd|Hd].
      * rewrite (load_item_ok bid d Hd). simpl. split; [by eexists|].
        intros Hne. destruct Hne. by apply map_Forall_insert_2.
      * rewrite (load_item_negative bid d) by lia. simpl. split; [|done].
        intros Hall. apply map_Forall_insert in Hall as [? _]; done.
    + rewrite (IHbad Hm). simpl. split; [|done].
      intros Hall. apply map_Forall_insert in Hall as [_ ?]; done.
Qed.

Section MoreStorageFacts.

Context {blob : Type}.
Variable json_dumps : State → blob.
Variable json_load : blob → option State.

(** get_store builds the store from whatever load_state returns: when every
    stored total_copies is non-negative it returns the stored orders and one
    book per stored record (missing available_copies default to the total, a
    missing price to 0.0, no uploaded cover); when some stored total_copies
    is negative it raises ValueError, which load_state's fallback does not
    catch. *)
Theorem get_store_outcome (f : file blob) :
  let st := load_state json_load f in
  (map_Forall (λ _ d, 0 ≤ r_total_copies d) (default ∅ (st_books st)) →
     ∃ s, get_store json_load f = Ok s
        ∧ orders s = default [] (st_orders st)
        ∧ users (lib s) = ∅ ∧ borrow_records (lib s) = []
        ∧ ∀ bid, books (lib s) !! bid
                 = record_to_book bid <$> default ∅ (st_books st) !! bid)
  ∧ (¬ map_Forall (λ _ d, 0 ≤ r_total_copies d) (default ∅ (st_books st)) →
     get_store json_load f = Raise (ValueError "total_copies cannot be negative")).
Proof.
  simpl. split.
  - intros Hok. unfold get_store. rewrite (load_from_dict_ok _ _ Hok). simpl.
    eexists. split; [done|]. simpl. split_and!; try done.
    intros bid. rewrite map_lookup_imap.
    by destruct (default ∅ (st_books (load_state json_load f)) !! bid).
  - intros Hbad. unfold get_store. by rewrite (load_from_dict_raise _ _ Hbad).
Qed.

End MoreStorageFacts.

(** A stored book with total_copies = -1 makes get_store raise; an empty
    document gives an empty store. *)
Lemma get_store_outcome_sample :
  get_store doc_load
            (Content (Some (mkState
               (Some {["B1" := mkItemRecord "T" "A" (-1) None None None]}) None)))
  = Raise (ValueError "total_copies cannot be negative")
  ∧ ∃ s, get_store doc_load (Content (Some (mkState None None))) = Ok s
       ∧ orders s = [].
Proof.
  split.
  - apply (get_store_outcome doc_load). simpl. intros Hall.
    apply map_Forall_singleton in Hall. simpl in Hall. lia.
  - destruct (get_store_outcome doc_load (Content (Some (mkState None None))))
      as [Hok _].
    destruct Hok as (s & Hs & Ho & _); [apply map_Forall_empty|].
    by exists s.
Defined.

(** What is saved after a reload is what was saved before: to_dict of the
    reloaded library equals to_dict of the original one, so a second round
    trip loses nothing more. *)
Theorem to_dict_reload l0 l :
  map_Forall (λ _ b, 0 ≤ total_copies b) (books l) →
  ∃ l', load_from_dict l0 (to_dict l) = Ok l' ∧ to_dict l' = to_dict l.
Proof.
  intros Hok.
  destruct (load_from_dict_to_dict l0 l Hok) as (l' & Hload & _ & _ & _ & Hbooks).
  exists l'. split; [done|]. apply map_eq. intros bid.
  unfold to_dict. rewrite !lookup_fmap, Hbooks.
  by destruct (books l !! bid).
Qed.

(** Also for a book with an uploaded cover. *)
Lemma to_dict_reload_sample :
  ∃ l', load_from_dict (Library_init "Digital Library") (to_dict lib_B2) = Ok l'
      ∧ to_dict l' = to_dict lib_B2.
Proof.
  apply (to_dict_reload (Library_init "Digital Library") lib_B2).
  apply map_Forall_singleton. simpl. lia.
Defined.

(** load_from_dict checks the stored total only: the loaded catalog is within
    its bounds exactly when every stored record has
    0 <= available_copies <= total_copies (a missing available_copies counts
    as the total). *)
Theorem load_from_dict_bounds l data l' :
  load_from_dict l data = Ok l' →
  catalog_ok l' ↔
  map_Forall (λ _ d, 0 ≤ default (r_total_copies d) (r_available_copies d)
                       ≤ r_total_copies d) data.
Proof.
  intros Hload.
  destruct (decide (map_Forall (λ _ d, 0 ≤ r_total_copies d) data)) as [Hok|Hbad].
  2:{ by rewrite (load_from_dict_raise l data Hbad) in Hload. }
  rewrite (load_from_dict_ok l data Hok) in Hload. injection Hload as <-.
  unfold catalog_ok. simpl. split.
  - intros Hall bid d Hd.
    apply (Hall bid (record_to_book bid d)).
    by rewrite map_lookup_imap, Hd.
  - intros Hall bid b Hb. rewrite map_lookup_imap in Hb.
    destruct (data !! bid) as [d|] eqn:Hd; [|done].
    simpl in Hb. injection Hb as <-. exact (Hall bid d Hd).
Qed.

(** A stored record with 7 available of 5 loads, and the loaded catalog is
    out of bounds. *)
Lemma load_from_dict_bounds_sample :
  ∃ l', load_from_dict (Library_init "Digital Library")
          {["B1" := mkItemRecord "T" "A" 5 (Some 7) None None]} = Ok l'
      ∧ ¬ catalog_ok l'.
Proof.
  exists (set_books {["B1" := mkBook "T" "A" "B1" 5 7 0%float None None None]}
                    (Library_init "Digital Library")).
  assert (load_from_dict (Library_init "Digital Library")
            {["B1" := mkItemRecord "T" "A" 5 (Some 7) None None]}
          = Ok (set_books {["B1" := mkBook "T" "A" "B1" 5 7 0%float None None None]}
                          (Library_init "Digital Library"))) as Hload
    by reflexivity.
  split; [exact Hload|]. intros Hl.
  apply (load_from_dict_bounds _ _ _ Hload) in Hl.
  apply map_Forall_singleton in Hl. simpl in Hl. lia.
Defined.

(** ** Orders: finding an order *)

Lemma find_order_from_spec i oid os :
  match find_order_from i oid os with
  | Some k =>
      ∃ j o, k = (i + j)%nat ∧ os !! j = Some o ∧ o_order_id o = oid
           ∧ ∀ j' o', (j' < j)%nat → os !! j' = Some o' → o_order_id o' ≠ oid
  | None => ∀ o, o ∈ os → o_order_id o ≠ oid
  end.
Proof.
  revert i. induction os as [|o os IH]; intros i; simpl.
  { by intros o ?%elem_of_nil. }
  destruct (String.eqb_spec (o_order_id o) oid) as [Heq|Hne].
  - exists 0%nat, o. split; [lia|]. split; [done|]. split; [done|]. lia.
  - specialize (IH (S i)). destruct (find_order_from (S i) oid os) as [k|].
    + destruct IH as (j & o' & -> & Hj & Hid & Hfirst).
      exists (S j), o'. split; [lia|]. split; [done|]. split; [done|].
      intros [|j'] o'' Hlt Hlook; simpl in Hlook.
      * by injection Hlook as <-.
      * apply (Hfirst j' o''); [lia|done].
    + intros o' [->|Hin]%elem_of_cons; [done|]. by apply IH.
Qed.

(** find_order_index answers with the position of the first order that
    carries the id, and with None exactly when the id is empty or no order
    carries it. *)
Theorem find_order_index_spec (s : Store) (oid : string) :
  match find_order_index s oid with
  | Some i =>
      oid ≠ ""
      ∧ (∃ o, orders s !! i = Some o ∧ o_order_id o = oid)
      ∧ (∀ j o, (j < i)%nat → orders s !! j = Some o → o_order_id o ≠ oid)
  | None => oid = "" ∨ ∀ o, o ∈ orders s → o_order_id o ≠ oid
  end.
Proof.
  unfold find_order_index. destruct (String.eqb_spec oid "") as [->|Hne].
  { by left. }
  pose proof (find_order_from_spec 0 oid (orders s)) as Hspec.
  destruct (find_order_from 0 oid (orders s)) as [k|]; [|by right].
  destruct Hspec as (j & o & -> & Hj & Hid & Hfirst). simpl.
  split; [done|]. split; [by exists o|]. exact Hfirst.
Qed.

(** ** Orders: what the handlers leave alone *)

Lemma fmap_insert_same {A B} (f : A → B) (l : list A) i x y :
  l !! i = Some x → f y = f x → f <$> <[i := y]> l = f <$> l.
Proof.
  intros Hx Hf. rewrite list_fmap_insert, Hf.
  apply list_insert_id. by rewrite list_lookup_fmap, Hx.
Qed.

Section HandlerFacts.

Context {blob : Type}.
Variable json_dumps : State → blob.

Local Arguments prune_cart : simpl never.

(** The status buttons and the reminder never rewrite what an order is
    about: the ledger keeps its length and every order keeps its id, time,
    customer, user id, lines and total.  Pay Now, Mark Delivered and the
    reminder also leave the catalog alone, the first two keep the notes and
    the reminder keeps the statuses; Cancel (Restock) keeps the notes. *)
Theorem status_handlers_frame (w : World) :
  (∀ row,
     order_core <$> orders (store (pay_now json_dumps w row))
     = order_core <$> orders (store w)
     ∧ o_admin_note <$> orders (store (pay_now json_dumps w row))
       = o_admin_note <$> orders (store w)
     ∧ lib (store (pay_now json_dumps w row)) = lib (store w))
  ∧ (∀ idx w', mark_delivered json_dumps w idx = Ok w' →
       order_core <$> orders (store w') = order_core <$> orders (store w)
       ∧ o_admin_note <$> orders (store w') = o_admin_note <$> orders (store w)
       ∧ lib (store w') = lib (store w))
  ∧ (∀ idx w', send_reminder json_dumps w idx = Ok w' →
       order_core <$> orders (store w') = order_core <$> orders (store w)
       ∧ o_status <$> orders (store w') = o_status <$> orders (store w)
       ∧ lib (store w') = lib (store w))
  ∧ (∀ idx w', cancel_restock json_dumps w idx = Ok w' →
       order_core <$> orders (store w') = order_core <$> orders (store w)
       ∧ o_admin_note <$> orders (store w') = o_admin_note <$> orders (store w)).
Proof.
  split_and!.
  - intros row. unfold pay_now.
    destruct (orders (store w) !! row) as [r|]; [|done].
    destruct (negb _); [done|].
    destruct (find_order_index (store w) (o_order_id r)) as [idx|]; [|done].
    destruct (orders (store w) !! idx) as [o|] eqn:Ho; [|done]. simpl.
    by rewrite !(fmap_insert_same _ _ _ o).
  - intros idx w'. unfold mark_delivered.
    destruct (orders (store w) !! idx) as [o|] eqn:Ho; [|done].
    destruct (negb _); intros [= <-]; [done|]. simpl.
    by rewrite !(fmap_insert_same _ _ _ o).
  - intros idx w'. unfold send_reminder.
    destruct (orders (store w) !! idx) as [o|] eqn:Ho; [|done].
    intros [= <-]. simpl. by rewrite !(fmap_insert_same _ _ _ o).
  - intros idx w'. unfold cancel_restock.
    destruct (orders (store w) !! idx) as [o|] eqn:Ho; [|done].
    intros [= <-]. simpl. by rewrite !(fmap_insert_same _ _ _ o).
Qed.

Lemma can_purchase_lines_present bs items msg :
  Forall (λ line, is_Some (bs !! line.1)) items →
  can_purchase_lines bs items = (false, msg) →
  is_bad_quantity msg ∨ is_insufficient_stock msg.
Proof.
  induction 1 as [|[k q] items [b Hb] _ IH]; simpl; [done|].
  simpl in Hb. rewrite Hb.
  destruct (q <=? 0); [intros [= <-]; by left|].
  destruct (available_copies b <? q); [|done].
  intros [= <-]. right. by exists (title b).
Qed.

Lemma prune_cart_present bs items :
  Forall (λ line, is_Some (bs !! line.1)) (prune_cart bs items).
Proof.
  unfold prune_cart. induction items as [|[k q] items IH]; simpl; [constructor|].
  case_bool_decide as Hk; [|done]. by constructor.
Qed.

Lemma prune_cart_keys bs items k :
  k ∈ (prune_cart bs items).*1 → k ∈ items.*1.
Proof.
  unfold prune_cart. induction items as [|[k' q] items IH]; simpl; [done|].
  case_bool_decide; simpl.
  - intros [->|Hin]%elem_of_cons; [apply list_elem_of_here|].
    apply list_elem_of_further. by apply IH.
  - intros Hin. apply list_elem_of_further. by apply IH.
Qed.

Lemma prune_cart_NoDup bs items :
  NoDup items.*1 → NoDup (prune_cart bs items).*1.
Proof.
  induction items as [|[k q] items IH]; simpl; [done|].
  intros [Hk Hnd]%NoDup_cons. unfold prune_cart in *. simpl.
  case_bool_decide; simpl; [|by apply IH].
  apply NoDup_cons. split; [|by apply IH].
  intros Hin. apply Hk. by apply (prune_cart_keys bs).
Qed.

(** A refused order leaves the world as it was and is never refused for an
    unknown book: the Buy tab has dropped such lines from the cart, so the
    message is "Qty must be > 0." or the not-enough-stock message. *)
Theorem confirm_order_refusal (w w' : World) (now customer user_id msg : string)
    (cart cart' : list (string * Z)) :
  confirm_order json_dumps w now customer user_id cart = Ok (w', cart', st_error msg) →
  w' = w
  ∧ cart' = prune_cart (books (lib (store w))) cart
  ∧ (is_bad_quantity msg ∨ is_insufficient_stock msg)
  ∧ ¬ is_not_found msg.
Proof.
  unfold confirm_order. destruct cart as [|line cart]; [done|].
  destruct (order_total (lib (store w)) (line :: cart)) as [total|]; [|done].
  simpl. unfold purchase, can_purchase.
  destruct (can_purchase_lines _ _) as [[|] m] eqn:Hcan; simpl.
  { destruct (purchase_lines _ _); [|done]. done. }
  intros [= <- <- <-]. split; [by destruct w as [[??] ?]|]. split; [done|].
  pose proof (can_purchase_lines_present _ _ _ (prune_cart_present _ _) Hcan) as Hmsg.
  split; [done|].
  intros [bid Hnf]. destruct Hmsg as [Hq|[t Ht]].
  - unfold is_bad_quantity in Hq. rewrite Hq in Hnf. discriminate Hnf.
  - rewrite Ht in Hnf. discriminate Hnf.
Qed.

(** Cancelling the order that was just placed gives the catalog back: after
    an accepted confirm_order on a catalog within its bounds, Cancel
    (Restock) on the new order succeeds, the library is the one from before
    the order, and the ledger holds the old orders followed by the new one,
    cancelled. *)
Theorem confirm_then_cancel (w w1 : World) (now customer user_id note : string)
    (cart cart1 : list (string * Z)) :
  catalog_ok (lib (store w)) →
  NoDup cart.*1 →
  confirm_order json_dumps w now customer user_id cart
  = Ok (w1, cart1, st_success note) →
  ∃ w2 o,
    cancel_restock json_dumps w1 (length (orders (store w))) = Ok w2
    ∧ lib (store w2) = lib (store w)
    ∧ orders (store w2) = orders (store w) ++ [o]
    ∧ o_status o = "CANCELLED (RESTOCKED)"
    ∧ o_items o = prune_cart (books (lib (store w))) cart
    ∧ disk w2 = persist_now json_dumps (store w2).
Proof.
  intros Hok Hnd. unfold confirm_order. destruct cart as [|line cart]; [done|].
  destruct (order_total (lib (store w)) (line :: cart)) as [total|]; [|done].
  simpl. unfold purchase, can_purchase.
  destruct (can_purchase_lines _ _) as [[|] m] eqn:Hcan; simpl; [|done].
  destruct (purchase_lines _ _) as [bs'|] eqn:Hrun; [|done]. simpl.
  intros [= <- _ _]. unfold cancel_restock. simpl.
  rewrite list_lookup_middle by done. simpl.
  rewrite (restock_after_purchase_lines (books (lib (store w))) _ bs' Hok);
    [|by apply prune_cart_NoDup|by eapply can_purchase_lines_true|done].
  eexists _, _. split; [done|]. simpl.
  rewrite insert_app_r_alt, Nat.sub_diag by done. simpl.
  split_and!; try done. by destruct (lib (store w)).
Qed.

(** Every handler leaves the file holding the store: if the file was in
    step with the store before, it is afterwards, whether the handler
    changed something or not. *)
Theorem handlers_keep_disk_synced (w : World) :
  synced json_dumps w →
  (∀ now customer user_id cart w' cart' fb,
     confirm_order json_dumps w now customer user_id cart = Ok (w', cart', fb) →
     synced json_dumps w')
  ∧ (∀ row, synced json_dumps (pay_now json_dumps w row))
  ∧ (∀ idx w', mark_delivered json_dumps w idx = Ok w' → synced json_dumps w')
  ∧ (∀ idx w', send_reminder json_dumps w idx = Ok w' → synced json_dumps w')
  ∧ (∀ idx w', cancel_restock json_dumps w idx = Ok w' → synced json_dumps w').
Proof.
  intros Hw. split_and!.
  - intros now customer user_id cart w' cart' fb. unfold confirm_order.
    destruct cart as [|line cart]; [by intros [= <- _ _]|].
    destruct (order_total (lib (store w)) (line :: cart)) as [total|]; [|done].
    simpl.
    destruct (purchase_total (lib (store w))
                (prune_cart (books (lib (store w))) (line :: cart)))
      as (l' & ok & msg & -> & Hsame).
    simpl. destruct ok; simpl; intros [= <- _ _]; [done|].
    rewrite (Hsame eq_refl). by destruct w as [[??] ?].
  - intros row. unfold pay_now.
    destruct (orders (store w) !! row) as [r|]; [|done].
    destruct (negb _); [done|].
    destruct (find_order_index (store w) (o_order_id r)) as [idx|]; [|done].
    by destruct (orders (store w) !! idx).
  - intros idx w'. unfold mark_delivered.
    destruct (orders (store w) !! idx); [|done].
    by destruct (negb _); intros [= <-].
  - intros idx w'. unfold send_reminder.
    destruct (orders (store w) !! idx); [|done]. by intros [= <-].
  - intros idx w'. unfold cancel_restock.
    destruct (orders (store w) !! idx); [|done]. by intros [= <-].
Qed.

End HandlerFacts.

(** A cart that asks for 3 copies of "B1" when 2 are available. *)
Lemma confirm_order_refusal_sample :
  confirm_order doc_dumps (mkWorld (mkStore lib_B1 []) Absent)
                "2024-01-01 10:00:00" "bob" "BOB-00001" [("B1", 3)]
  = Ok (mkWorld (mkStore lib_B1 []) Absent, [("B1", 3)],
        st_error "Not enough stock for T.")
  ∧ ¬ is_not_found "Not enough stock for T.".
Proof.
  assert (confirm_order doc_dumps (mkWorld (mkStore lib_B1 []) Absent)
            "2024-01-01 10:00:00" "bob" "BOB-00001" [("B1", 3)]
          = Ok (mkWorld (mkStore lib_B1 []) Absent, [("B1", 3)],
                st_error "Not enough stock for T.")) as Hrun by reflexivity.
  destruct (confirm_order_refusal doc_dumps _ _ _ _ _ _ _ _ Hrun) as (_ & _ & _ & Hnf).
  split; [exact Hrun | exact Hnf].
Defined.

(** Two copies of "B1" ordered and the order cancelled at once. *)
Lemma confirm_then_cancel_sample :
  ∃ w1 w2,
    confirm_order doc_dumps (mkWorld (mkStore lib_B1 []) Absent)
                  "2024-01-01 10:00:00" "bob" "BOB-00001" [("B1", 2)]
    = Ok (w1, [], st_success "Order ORD-00001 created. Please complete payment in 'My Orders'.")
    ∧ cancel_restock doc_dumps w1 0 = Ok w2
    ∧ lib (store w2) = lib_B1.
Proof.
  assert (∃ w1, confirm_order doc_dumps (mkWorld (mkStore lib_B1 []) Absent)
                  "2024-01-01 10:00:00" "bob" "BOB-00001" [("B1", 2)]
                = Ok (w1, [], st_success
                        "Order ORD-00001 created. Please complete payment in 'My Orders'."))
    as [w1 Hrun] by (eexists; reflexivity).
  assert (NoDup [("B1", 2)].*1) as Hnd.
  { apply (bool_decide_unpack _). vm_compute. exact I. }
  destruct (confirm_then_cancel doc_dumps (mkWorld (mkStore lib_B1 []) Absent)
              _ _ _ _ _ _ _ catalog_ok_lib_B1 Hnd Hrun)
    as (w2 & o & Hcancel & Hlib & _).
  exists w1, w2. split; [exact Hrun|]. split; [exact Hcancel | exact Hlib].
Defined.

(** A reminder on a freshly flushed store leaves the file in step. *)
Lemma handlers_keep_disk_synced_sample :
  ∃ w', send_reminder doc_dumps
          (mkWorld (mkStore lib_B1 [order_1 "PENDING_PAYMENT"])
                   (persist_now doc_dumps (mkStore lib_B1 [order_1 "PENDING_PAYMENT"]))) 0
        = Ok w'
      ∧ synced doc_dumps w'.
Proof.
  destruct (handlers_keep_disk_synced doc_dumps
              (mkWorld (mkStore lib_B1 [order_1 "PENDING_PAYMENT"])
                       (persist_now doc_dumps (mkStore lib_B1 [order_1 "PENDING_PAYMENT"]))))
    as (_ & _ & _ & Hremind & _); [reflexivity|].
  eexists. split; [reflexivity|]. by apply (Hremind 0%nat).
Defined.

(** ** Orders: ids taken from the ledger's length *)

Lemma zeros_S k :
  String.concat "" (replicate (S k) "0")
  = String "0" (String.concat "" (replicate k "0")).
Proof. by destruct k. Qed.

Lemma pretty_N_go_head x s :
  (0 < x)%N → ∃ c s', pretty_N_go x s = String c s' ∧ c ≠ "0"%char.
Proof.
  revert s. induction (N.lt_wf_0 x) as [x _ IH]; intros s Hx.
  rewrite pretty_N_go_step by done.
  destruct (decide (x `div` 10 = 0)%N) as [Hdiv|Hdiv].
  - rewrite Hdiv, pretty_N_go_0. eexists _, _. split; [done|].
    apply N.div_small_iff in Hdiv; [|done].
    rewrite N.mod_small by done.
    unfold pretty_N_char. repeat case_match; done || lia.
  - apply IH; [apply N.div_lt; lia | by apply N.neq_0_lt_0].
Qed.

Lemma pretty_nat_canonical (n : nat) : canonical (pretty n).
Proof.
  unfold pretty, pretty_nat, pretty, pretty_N.
  case_decide; [by left|]. right. apply pretty_N_go_head. lia.
Qed.

Lemma zeros_app_0 s : String.concat "" (replicate 0 "0") +:+ s = s.
Proof. done. Qed.

Lemma zeros_app_S k s :
  String.concat "" (replicate (S k) "0") +:+ s
  = String "0" (String.concat "" (replicate k "0") +:+ s).
Proof. by rewrite zeros_S. Qed.

Lemma app_empty_l (x y : string) : x +:+ y = "" → y = "".
Proof. by destruct x. Qed.

Lemma pad_inj a b s t :
  canonical s → canonical t →
  String.concat "" (replicate a "0") +:+ s = String.concat "" (replicate b "0") +:+ t →
  s = t.
Proof.
  intros Hs Ht. revert b. induction a as [|a IH]; intros [|b];
    rewrite ?zeros_app_0, ?zeros_app_S; try done.
  - intros ->.
    destruct Hs as [Hs|(c & s' & Hs & Hc)]; [|by injection Hs as <- _].
    injection Hs as Hs. apply app_empty_l in Hs.
    by destruct Ht as [->|(c & t' & -> & _)].
  - intros <-.
    destruct Ht as [Ht|(c & t' & Ht & Hc)]; [|by injection Ht as <- _].
    injection Ht as Ht. apply app_empty_l in Ht.
    by destruct Hs as [->|(c & s' & -> & _)].
  - intros [= Heq]. by apply (IH b).
Qed.

Lemma zfill5_inj n m : zfill5 n = zfill5 m → n = m.
Proof.
  unfold zfill5. cbv zeta. intros Heq.
  apply (inj pretty).
  exact (pad_inj _ _ _ _ (pretty_nat_canonical n) (pretty_nat_canonical m) Heq).
Qed.

Lemma ids_sequential_insert os i o o' :
  os !! i = Some o → o_order_id o' = o_order_id o →
  ids_sequential os → ids_sequential (<[i := o']> os).
Proof.
  intros Ho Hid Hseq j oj Hj.
  destruct (decide (i = j)) as [->|Hne].
  - rewrite list_lookup_insert_eq in Hj by (by eapply lookup_lt_Some).
    injection Hj as <-. rewrite Hid. by apply Hseq.
  - rewrite list_lookup_insert_ne in Hj by done. by apply Hseq.
Qed.

Lemma find_order_sequential l os i o :
  ids_sequential os → os !! i = Some o →
  find_order_index (mkStore l os) (o_order_id o) = Some i.
Proof.
  intros Hseq Ho. unfold find_order_index. rewrite (Hseq i o Ho). simpl.
  pose proof (find_order_from_spec 0 ("ORD-" +:+ zfill5 (S i)) os) as Hspec.
  destruct (find_order_from 0 _ os) as [k|].
  - destruct Hspec as (j & o' & -> & Hj & Hid & _). simpl.
    rewrite (Hseq j o' Hj) in Hid. simpl in Hid. injection Hid as Hid.
    apply zfill5_inj in Hid. by injection Hid as ->.
  - exfalso. apply (Hspec o); [by eapply list_elem_of_lookup_2|]. by apply Hseq.
Qed.

Section IdFacts.

Context {blob : Type}.
Variable json_dumps : State → blob.

Local Arguments prune_cart : simpl never.

(** A ledger whose ids follow the positions (ORD-00001 first) keeps doing so
    under every handler: confirm_order numbers the new order by the ledger's
    length, and the other handlers keep the ids.  In such a ledger no two
    orders share an id. *)
Theorem ids_sequential_preserved (w : World) :
  ids_sequential (orders (store w)) →
  (∀ now customer user_id cart w' cart' fb,
     confirm_order json_dumps w now customer user_id cart = Ok (w', cart', fb) →
     ids_sequential (orders (store w')))
  ∧ (∀ row, ids_sequential (orders (store (pay_now json_dumps w row))))
  ∧ (∀ idx w', mark_delivered json_dumps w idx = Ok w' →
       ids_sequential (orders (store w')))
  ∧ (∀ idx w', send_reminder json_dumps w idx = Ok w' →
       ids_sequential (orders (store w')))
  ∧ (∀ idx w', cancel_restock json_dumps w idx = Ok w' →
       ids_sequential (orders (store w')))
  ∧ (∀ i j oi oj, orders (store w) !! i = Some oi → orders (store w) !! j = Some oj →
       o_order_id oi = o_order_id oj → i = j).
Proof.
  intros Hseq. split_and!.
  - intros now customer user_id cart w' cart' fb. unfold confirm_order.
    destruct cart as [|line cart]; [by intros [= <- _ _]|].
    destruct (order_total (lib (store w)) (line :: cart)) as [total|]; [|done].
    simpl.
    destruct (purchase (lib (store w)) _) as [[l' [[|] msg]]|]; simpl; [| |done].
    + intros [= <- _ _]. simpl. intros i o Hi.
      apply lookup_app_Some in Hi as [Hi|[Hlen Hi]]; [by apply Hseq|].
      apply list_lookup_singleton_Some in Hi as [Hi <-]. simpl.
      do 2 f_equal. lia.
    + by intros [= <- _ _].
  - intros row. unfold pay_now.
    destruct (orders (store w) !! row) as [r|]; [|done].
    destruct (negb _); [done|].
    destruct (find_order_index (store w) (o_order_id r)) as [idx|]; [|done].
    destruct (orders (store w) !! idx) as [o|] eqn:Ho; [|done]. simpl.
    by apply (ids_sequential_insert _ _ o).
  - intros idx w'. unfold mark_delivered.
    destruct (orders (store w) !! idx) as [o|] eqn:Ho; [|done].
    destruct (negb _); intros [= <-]; [done|]. simpl.
    by apply (ids_sequential_insert _ _ o).
  - intros idx w'. unfold send_reminder.
    destruct (orders (store w) !! idx) as [o|] eqn:Ho; [|done].
    intros [= <-]. simpl. by apply (ids_sequential_insert _ _ o).
  - intros idx w'. unfold cancel_restock.
    destruct (orders (store w) !! idx) as [o|] eqn:Ho; [|done].
    intros [= <-]. simpl. by apply (ids_sequential_insert _ _ o).
  - intros i j oi oj Hi Hj Hid.
    rewrite (Hseq i oi Hi), (Hseq j oj Hj) in Hid. simpl in Hid.
    injection Hid as Hid. apply zfill5_inj in Hid. by injection Hid.
Qed.

(** In a ledger whose ids follow the positions, Pay Now on a pending row
    marks exactly that order as PAID: every other order, the catalog and the
    order's other fields stay as they were, and the new store is flushed. *)
Theorem pay_now_marks_the_row (w : World) (row : nat) (o : Order) :
  ids_sequential (orders (store w)) →
  orders (store w) !! row = Some o →
  o_status o = "PENDING_PAYMENT" →
  pay_now json_dumps w row
  = mkWorld (mkStore (lib (store w)) (<[row := set_status "PAID" o]> (orders (store w))))
            (persist_now json_dumps
               (mkStore (lib (store w))
                        (<[row := set_status "PAID" o]> (orders (store w))))).
Proof.
  intros Hseq Ho Hst. unfold pay_now. rewrite Ho, Hst. simpl.
  destruct (store w) as [l os] eqn:Hs. simpl in *.
  by rewrite (find_order_sequential l os row o Hseq Ho), Ho.
Qed.

End IdFacts.

(** The first order placed on an empty ledger gets ORD-00001, and the ledger
    follows its positions. *)
Lemma ids_sequential_preserved_sample :
  ∃ w1 c1 f1,
    confirm_order doc_dumps (mkWorld (mkStore lib_B1 []) Absent)
                  "2024-01-01 10:00:00" "bob" "BOB-00001" [("B1", 1)]
    = Ok (w1, c1, f1)
    ∧ ids_sequential (orders (store w1)).
Proof.
  assert (∃ w1 c1 f1,
            confirm_order doc_dumps (mkWorld (mkStore lib_B1 []) Absent)
                          "2024-01-01 10:00:00" "bob" "BOB-00001" [("B1", 1)]
            = Ok (w1, c1, f1)) as (w1 & c1 & f1 & Hrun)
    by (eexists _, _, _; reflexivity).
  exists w1, c1, f1. split; [exact Hrun|].
  destruct (ids_sequential_preserved doc_dumps (mkWorld (mkStore lib_B1 []) Absent))
    as (Hfirst & _).
  { intros i o Hi. done. }
  exact (Hfirst _ _ _ _ _ _ _ Hrun).
Defined.

(** Pay Now on the only, pending order of the sample world. *)
Lemma pay_now_marks_the_row_sample :
  o_status <$> orders (store (pay_now doc_dumps (world_B1 "PENDING_PAYMENT") 0))
  = ["PAID"].
Proof.
  rewrite (pay_now_marks_the_row doc_dumps (world_B1 "PENDING_PAYMENT") 0
             (order_1 "PENDING_PAYMENT")); [reflexivity| |reflexivity|reflexivity].
  intros [|i] o Hi; simpl in Hi; [by injection Hi as <-|].
  done.
Defined.

(** ** The cover that is shown *)

(** What the page shows after add_book updated a book: a non-empty upload
    is shown; an empty upload removes the cover (the URL is cleared and
    there are no bytes to show); without upload a non-empty URL is shown;
    with neither, the cover shown before stays. *)
Theorem update_book_cover_shown t a n url bytes mime b :
  cover_for_streamlit (update_book t a n url bytes mime b)
  = match bytes with
    | Some [] => None
    | Some data => Some (BytesIO data)
    | None => if truthy url then Url <$> url else cover_for_streamlit b
    end.
Proof.
  unfold update_book, cover_for_streamlit.
  destruct bytes as [[|c data]|]; simpl; [done..|].
  destruct (truthy url) eqn:Hurl; simpl; [|done]. by rewrite Hurl.
Qed.

Section CoverFacts.

Context {blob : Type}.
Variable json_load : blob → option State.

(** A store built by get_store holds no uploaded cover: every book has its
    key as id, no image bytes and no mime type, and the page shows either
    nothing or the book's non-empty URL. *)
Theorem get_store_shows_no_upload (f : file blob) (s : Store) (bid : string) (b : Book) :
  get_store json_load f = Ok s →
  books (lib s) !! bid = Some b →
  book_id b = bid ∧ image_bytes b = None ∧ image_mime b = None
  ∧ (cover_for_streamlit b = None
     ∨ ∃ u, cover_for_streamlit b = Some (Url u) ∧ image_url b = Some u ∧ u ≠ "").
Proof.
  unfold get_store.
  destruct (decide (map_Forall (λ _ d, 0 ≤ r_total_copies d)
                      (default ∅ (st_books (load_state json_load f))))) as [Hok|Hbad].
  2:{ by rewrite (load_from_dict_raise _ _ Hbad). }
  rewrite (load_from_dict_ok _ _ Hok). simpl. intros [= <-]. simpl.
  rewrite map_lookup_imap.
  destruct (default ∅ (st_books (load_state json_load f)) !! bid) as [d|]; [|done].
  simpl. intros [= <-]. split_and!; try done.
  unfold cover_for_streamlit. simpl.
  destruct (r_image_url d) as [u|]; simpl; [|by left].
  destruct (String.eqb_spec u "") as [->|Hu]; simpl; [by left|].
  right. by exists u.
Qed.

End CoverFacts.

(** The book whose cover was uploaded shows nothing after a save and a
    restart. *)
Lemma get_store_shows_no_upload_sample :
  ∃ s b, get_store doc_load (persist_now doc_dumps (mkStore lib_B2 [])) = Ok s
       ∧ books (lib s) !! "B2" = Some b
       ∧ image_bytes b = None
       ∧ cover_for_streamlit book_B2 = Some (BytesIO [Byte.x89; Byte.x50]).
Proof.
  assert (∃ s, get_store doc_load (persist_now doc_dumps (mkStore lib_B2 [])) = Ok s)
    as [s Hs] by (eexists; reflexivity).
  assert (∃ b, books (lib s) !! "B2" = Some b) as [b Hb].
  { apply (f_equal (λ r, match r with
                         | Ok s => books (lib s) !! "B2"
                         | Raise _ => None
                         end)) in Hs.
    rewrite <-Hs. by eexists. }
  destruct (get_store_shows_no_upload doc_load _ s "B2" b Hs Hb) as (_ & Hbytes & _).
  exists s, b. split; [exact Hs|]. split; [exact Hb|]. split; [exact Hbytes|].
  reflexivity.
Defined.
